(** * DriveAI2: the per-frame lane pipeline of [web_server.py]

    A shallow embedding of [process_image] (web_server.py, lines 49-180) and
    of its nested helper [average_lines], followed by the properties of the
    lane-geometry core.

    Conventions of the embedding.
    - Python exceptions are values of the error monad [exc].
    - An [ndarray] image is a [Mat]: its shape and a pixel function. Frames
      are 8-bit arrays; a [Mat] records no dtype, so the depth checks of
      OpenCV are not modelled.
    - numpy [int32] arithmetic wraps around ([wrap32]).
    - A [float64] is read as the rational it denotes and float arithmetic is
      taken exact ([Q]); [int(_)] on a float is truncation towards zero.
    - OpenCV and numpy are external: their shape and failure behaviour is
      written out in [cv2_*]/[np_*] below, their pixel-level and numeric
      kernels (interpolation, Canny, Hough voting, rasterisation, the
      least-squares solver) are the fields of a [Kernels] record over which
      every statement is quantified. *)

From Stdlib Require Import ZArith QArith Qround Qabs List String Bool Lia.
From Stdlib Require Import Ascii.
From Stdlib.Strings Require Byte.
Import ListNotations.
Open Scope Z_scope.

(* ================================================================== *)
(** ** Python values and control *)

Module Py.

(** The exceptions the pipeline can meet: [cv2.error] from an OpenCV
    assertion, [OverflowError] from converting a Python int to a C int. *)
Inductive PyExc : Type :=
| cv2_error
| OverflowError.

Inductive exc (A : Type) : Type :=
| Ret (a : A)
| Raise (e : PyExc).
Arguments Ret {A} a.
Arguments Raise {A} e.

Definition bind {A B : Type} (c : exc A) (k : A -> exc B) : exc B :=
  match c with
  | Ret a => k a
  | Raise e => Raise e
  end.

(** [try: body / except Exception: handler]. *)
Definition try_except {A : Type} (body : exc A) (handler : PyExc -> exc A)
  : exc A :=
  match body with
  | Ret a => Ret a
  | Raise e => handler e
  end.

Definition raises {A : Type} (c : exc A) : Prop := exists e, c = Raise e.
Definition returns {A : Type} (c : exc A) : Prop := exists a, c = Ret a.

(** numpy [int32]: two's complement wrap-around. *)
Definition wrap32 (z : Z) : Z := (z + 2 ^ 31) mod 2 ^ 32 - 2 ^ 31.
Definition sub32 (a b : Z) : Z := wrap32 (a - b).
Definition in_int32 (z : Z) : bool := (- 2 ^ 31 <=? z) && (z <? 2 ^ 31).

(** [int(x)] for a float [x]: truncation towards zero. *)
Definition int_of_float (q : Q) : Z := Z.quot (Qnum q) (Z.pos (Qden q)).

Definition Qlt_bool (a b : Q) : bool := negb (Qle_bool b a).

(** Rounding to the nearest integer, ties to even (OpenCV's [cvRound],
    Python's [round]). *)
Definition round_half_even (q : Q) : Z :=
  let f := Qfloor q in
  let r := (q - inject_Z f)%Q in
  if Qlt_bool r (1 # 2) then f
  else if Qlt_bool (1 # 2) r then f + 1
  else if Z.even f then f else f + 1.

(** [round(x, ndigits)]. *)
Definition py_round (q : Q) (ndigits : Z) : Q :=
  (inject_Z (round_half_even (q * inject_Z (10 ^ ndigits)))
   / inject_Z (10 ^ ndigits))%Q.

(** The values stored in the [lane_info] dictionary; the dictionary keeps
    its insertion order. *)
Inductive pyval : Type :=
| PyFloat (q : Q)
| PyList (l : list Z).

Definition dict : Type := list (string * pyval).

Fixpoint dict_get (d : dict) (k : string) : option pyval :=
  match d with
  | [] => None
  | (k', v) :: d' => if String.eqb k' k then Some v else dict_get d' k
  end.

End Py.
Export Py.

Declare Scope exc_scope.
Delimit Scope exc_scope with exc.
Notation "x <- c ;; k" := (bind c (fun x => k))
  (at level 61, c at next level, right associativity) : exc_scope.
Open Scope exc_scope.

(* ================================================================== *)
(** ** Images and the OpenCV / numpy interface *)

Module CV.

(** An image array: [shape = (rows, cols)] or [(rows, cols, chans)] (a 2-D
    array has [chans = 1]) and the value of channel [c] at row [i],
    column [j]. *)
Record Mat : Type := mkMat {
  rows : Z;
  cols : Z;
  chans : Z;
  px : Z -> Z -> Z -> Z
}.

(** What Python passes around: [None] or an array. *)
Definition PyImage : Type := option Mat.

Definition same_shape (a b : Mat) : Prop :=
  rows a = rows b /\ cols a = cols b /\ chans a = chans b.

Definition in_range (m : Mat) (i j c : Z) : Prop :=
  0 <= i < rows m /\ 0 <= j < cols m /\ 0 <= c < chans m.

(** Array equality: same shape and same pixels. *)
Definition mat_eq (a b : Mat) : Prop :=
  same_shape a b /\ forall i j c, in_range a i j c -> px a i j c = px b i j c.

Definition same_shapeb (a b : Mat) : bool :=
  (rows a =? rows b) && (cols a =? cols b) && (chans a =? chans b).

(** [Size::empty()]. *)
Definition empty (m : Mat) : bool := (rows m <=? 0) || (cols m <=? 0).

(** A detected segment [line[0] = [x1, y1, x2, y2]] ([int32]). *)
Definition Segment : Type := (Z * Z * Z * Z)%type.

Definition Point : Type := (Z * Z)%type.
Definition Color : Type := (Z * Z * Z)%type.

Definition channel (col : Color) (c : Z) : Z :=
  let '(b, g, r) := col in
  if c =? 0 then b else if c =? 1 then g else r.

(** The text burnt into the frame, kept symbolic: the two f-strings of
    lines 172 and 174. *)
Inductive Text : Type :=
| RadiusText (radius : Q)
| DeviationText (magnitude : Q) (direction : string).

Record HoughParams : Type := mkHough {
  rho : Z;
  theta_degrees : Z;
  threshold : Z;
  minLineLength : Z;
  maxLineGap : Z
}.

(** The kernels of the external libraries. No property of them is assumed. *)
Record Kernels : Type := mkKernels {
  (** bilinear interpolation of [cv2.resize]: source, target rows and cols *)
  resize_px : Mat -> Z -> Z -> Z -> Z -> Z -> Z;
  (** luminance of [cv2.cvtColor(_, COLOR_BGR2GRAY)] *)
  gray_px : Mat -> Z -> Z -> Z -> Z;
  (** [cv2.GaussianBlur]: source, kernel size, sigma *)
  blur_px : Mat -> Z * Z -> Z -> Z -> Z -> Z -> Z;
  (** [cv2.Canny]: source, low and high threshold *)
  canny_px : Mat -> Z -> Z -> Z -> Z -> Z -> Z;
  (** rasterisation of [cv2.fillPoly]: is pixel (row, col) inside? *)
  poly_covers : list Point -> Z -> Z -> bool;
  (** [cv2.HoughLinesP]: [None] when no segment is found *)
  hough : Mat -> HoughParams -> option (list Segment);
  (** rasterisation of [cv2.line]: endpoints, thickness, pixel (row, col) *)
  line_covers : Point -> Point -> Z -> Z -> Z -> bool;
  (** rasterisation of [cv2.putText]: text, origin, pixel (row, col) *)
  text_covers : Text -> Point -> Z -> Z -> bool;
  (** [np.polyfit(x, y, 1)]: the pair (slope, intercept) *)
  polyfit1 : list Z -> list Z -> Q * Q
}.

Section Primitives.
Variable K : Kernels.

(** [cv2.resize(src, (width, height))] asserts a non-empty source. *)
Definition cv2_resize (src : PyImage) (dsize : Z * Z) : exc Mat :=
  match src with
  | None => Raise cv2_error
  | Some m =>
      if empty m then Raise cv2_error
      else
        let '(width, height) := dsize in
        Ret (mkMat height width (chans m) (resize_px K m height width))
  end.

(** [cv2.cvtColor(src, cv2.COLOR_BGR2GRAY)] accepts 3 or 4 channels. *)
Definition cv2_cvtColor_BGR2GRAY (src : Mat) : exc Mat :=
  if (chans src =? 3) || (chans src =? 4)
  then Ret (mkMat (rows src) (cols src) 1 (gray_px K src))
  else Raise cv2_error.

Definition cv2_GaussianBlur (src : Mat) (ksize : Z * Z) (sigma : Z) : exc Mat :=
  Ret (mkMat (rows src) (cols src) (chans src) (blur_px K src ksize sigma)).

(** [cv2.Canny] takes a single-channel image. *)
Definition cv2_Canny (src : Mat) (lo hi : Z) : exc Mat :=
  if chans src =? 1
  then Ret (mkMat (rows src) (cols src) 1 (canny_px K src lo hi))
  else Raise cv2_error.

Definition np_zeros_like (m : Mat) : Mat :=
  mkMat (rows m) (cols m) (chans m) (fun _ _ _ => 0).

Definition np_zeros (shape : Z * Z * Z) : Mat :=
  let '(h, w, c) := shape in mkMat h w c (fun _ _ _ => 0).

(** [cv2.fillPoly(img, [polygon], value)] writes in place. *)
Definition cv2_fillPoly (img : Mat) (polygon : list Point) (value : Z) : Mat :=
  mkMat (rows img) (cols img) (chans img)
        (fun i j c => if poly_covers K polygon i j then value else px img i j c).

(** [cv2.bitwise_and(a, b)] asserts equal shapes. *)
Definition cv2_bitwise_and (a b : Mat) : exc Mat :=
  if same_shapeb a b
  then Ret (mkMat (rows a) (cols a) (chans a)
                  (fun i j c => Z.land (px a i j c) (px b i j c)))
  else Raise cv2_error.

Definition cv2_HoughLinesP (img : Mat) (p : HoughParams)
  : option (list Segment) :=
  hough K img p.

(** [cv2.line(img, pt1, pt2, color, thickness)] writes in place; the
    binding converts every coordinate to a C [int] and raises
    [OverflowError] when it does not fit. *)
Definition cv2_line (img : Mat) (pt1 pt2 : Point) (col : Color)
           (thickness : Z) : exc Mat :=
  if in_int32 (fst pt1) && in_int32 (snd pt1)
     && in_int32 (fst pt2) && in_int32 (snd pt2)
  then Ret (mkMat (rows img) (cols img) (chans img)
                  (fun i j c => if line_covers K pt1 pt2 thickness i j
                                then channel col c else px img i j c))
  else Raise OverflowError.

Definition saturate_u8 (z : Z) : Z := Z.max 0 (Z.min 255 z).

(** [cv2.addWeighted(a, alpha, b, beta, gamma)]:
    [saturate(a*alpha + b*beta + gamma)] per value; asserts equal shapes. *)
Definition cv2_addWeighted (a : Mat) (alpha : Q) (b : Mat) (beta gamma : Q)
  : exc Mat :=
  if same_shapeb a b
  then Ret (mkMat (rows a) (cols a) (chans a)
                  (fun i j c =>
                     saturate_u8
                       (round_half_even
                          (inject_Z (px a i j c) * alpha
                           + inject_Z (px b i j c) * beta + gamma)%Q)))
  else Raise cv2_error.

(** [cv2.putText(img, text, org, ...)] writes in place. *)
Definition cv2_putText (img : Mat) (text : Text) (org : Point) (col : Color)
  : Mat :=
  mkMat (rows img) (cols img) (chans img)
        (fun i j c => if text_covers K text org i j
                      then channel col c else px img i j c).

End Primitives.

End CV.
Export CV.

(* ================================================================== *)
(** ** The pipeline of [process_image] *)

Module Pipeline.

(** A fitted lane line [np.array([[x1, y1, x2, y2]])[0]]. *)
Definition LaneLine : Type := (Z * Z * Z * Z)%type.

Definition bottom_x (l : LaneLine) : Z := let '(x1, _, _, _) := l in x1.
Definition bottom_y (l : LaneLine) : Z := let '(_, y1, _, _) := l in y1.
Definition top_x (l : LaneLine) : Z := let '(_, _, x2, _) := l in x2.
Definition top_y (l : LaneLine) : Z := let '(_, _, _, y2) := l in y2.

(** Lines 88-91: [slope = (y2 - y1) / (x2 - x1)] on [int32] coordinates.
    The float quotient of two [int32] values is below 0.5, or below 0,
    exactly when the rational one is: both bounds are floats and the
    quotient, when it differs from 0.5, does so by more than 2^-33. *)
Definition slope_of (line : Segment) : Q :=
  let '(x1, y1, x2, y2) := line in
  (inject_Z (sub32 y2 y1) / inject_Z (sub32 x2 x1))%Q.

(** Lines 86-101: the body of the loop over the detected segments. *)
Definition classify_step (acc : list Segment * list Segment) (line : Segment)
  : list Segment * list Segment :=
  let '(left_lines, right_lines) := acc in
  let '(x1, y1, x2, y2) := line in
  if sub32 x2 x1 =? 0 then acc
  else
    let slope := (inject_Z (sub32 y2 y1) / inject_Z (sub32 x2 x1))%Q in
    if Qlt_bool (Qabs slope) (1 # 2) then acc
    else if Qlt_bool slope 0 then (left_lines ++ [line], right_lines)
    else (left_lines, right_lines ++ [line]).

(** Lines 82-101. *)
Definition classify (lines : option (list Segment))
  : list Segment * list Segment :=
  match lines with
  | None => ([], [])
  | Some ls => fold_left classify_step ls ([], [])
  end.

(** Lines 108-114: the endpoint coordinates, two per segment. *)
Definition collect_step (acc : list Z * list Z) (line : Segment)
  : list Z * list Z :=
  let '(x_coords, y_coords) := acc in
  let '(x1, y1, x2, y2) := line in
  (x_coords ++ [x1; x2], y_coords ++ [y1; y2]).

Definition collect (lines : list Segment) : list Z * list Z :=
  fold_left collect_step lines ([], []).

Definition left_curverad : Q := 1000.
Definition right_curverad : Q := 1000.

(** Lines 157-161. For bottom coordinates that [cv2.line] accepted the
    difference [vehicle_center - lane_center] is exact in [float64], so the
    sign of the deviation is the sign computed here. *)
Definition lane_center_of (left_line right_line : LaneLine) : Q :=
  (inject_Z (bottom_x left_line + bottom_x right_line) / 2)%Q.

Definition vehicle_center_of (width : Z) : Q := (inject_Z width / 2)%Q.

Definition deviation_of (width : Z) (left_line right_line : LaneLine) : Q :=
  ((vehicle_center_of width - lane_center_of left_line right_line)
   * (37 # 10) / inject_Z width)%Q.

(** Line 173. *)
Definition direction_of (deviation : Q) : string :=
  if Qlt_bool deviation 0 then "left"%string else "right"%string.

(** Lines 163-169. *)
Definition lane_info_of (deviation : Q) : dict :=
  [ ("left_fit"%string, PyList [0; 0; 0]);
    ("right_fit"%string, PyList [0; 0; 0]);
    ("left_curverad"%string, PyFloat left_curverad);
    ("right_curverad"%string, PyFloat right_curverad);
    ("deviation"%string, PyFloat deviation) ].

(** Lines 69-71. *)
Definition roi_polygon (height width : Z) : list Point :=
  [ (0, height); (width, height); (width / 2, height / 2) ].

Definition hough_params : HoughParams := mkHough 2 1 100 40 5.

Definition white : Color := (255, 255, 255).

Section WithKernels.
Variable K : Kernels.

(** Lines 104-130, the nested function; [height] is the enclosing
    function's variable. *)
Definition average_lines (height : Z) (lines : list Segment)
  : option LaneLine :=
  if (List.length lines =? 0)%nat then None
  else
    let '(x_coords, y_coords) := collect lines in
    if (0 <? List.length x_coords)%nat && (0 <? List.length y_coords)%nat then
      let '(slope, intercept) := polyfit1 K x_coords y_coords in
      let y1 := height in
      let y2 := int_of_float (inject_Z height * (6 # 10)) in
      let x1 := if negb (Qeq_bool slope 0)
                then int_of_float ((inject_Z y1 - intercept) / slope) else 0 in
      let x2 := if negb (Qeq_bool slope 0)
                then int_of_float ((inject_Z y2 - intercept) / slope) else 0 in
      Some (x1, y1, x2, y2)
    else None.

(** Lines 58-76: from the resized frame to the detected segments. *)
Definition detect_lines (image : Mat) : exc (option (list Segment)) :=
  gray <- cv2_cvtColor_BGR2GRAY K image ;;
  blur <- cv2_GaussianBlur K gray (5, 5) 0 ;;
  edges <- cv2_Canny K blur 50 150 ;;
  let mask := np_zeros_like edges in
  let height := rows image in
  let width := cols image in
  let polygon := roi_polygon height width in
  let mask := cv2_fillPoly K mask polygon 255 in
  masked_edges <- cv2_bitwise_and edges mask ;;
  Ret (cv2_HoughLinesP K masked_edges hough_params).

(** Lines 137-139 and 141-143. *)
Definition draw_lane (line_image : Mat) (line : option LaneLine) (col : Color)
  : exc Mat :=
  match line with
  | None => Ret line_image
  | Some (x1, y1, x2, y2) => cv2_line K line_image (x1, y1) (x2, y2) col 5
  end.

(** Lines 149-176. *)
Definition annotate (width : Z) (result : Mat)
           (left_line right_line : option LaneLine) : Mat * dict :=
  match left_line, right_line with
  | Some l, Some r =>
      let deviation := deviation_of width l r in
      let lane_info := lane_info_of deviation in
      let result :=
        cv2_putText K result (RadiusText (py_round left_curverad 1))
                    (30, 40) white in
      let direction := direction_of deviation in
      let result :=
        cv2_putText K result
                    (DeviationText (py_round (Qabs deviation) 3) direction)
                    (30, 80) white in
      (result, lane_info)
  | _, _ => (result, [])
  end.

(** The two fitted lines for a list of detected segments (lines 82-134). *)
Definition lane_lines (height : Z) (lines : option (list Segment))
  : option LaneLine * option LaneLine :=
  let '(left_lines, right_lines) := classify lines in
  (average_lines height left_lines, average_lines height right_lines).

(** Lines 58-176: everything after the resize. *)
Definition pipeline (image : Mat) : exc (Mat * dict) :=
  lines <- detect_lines image ;;
  let height := rows image in
  let width := cols image in
  let line_image := np_zeros (height, width, 3) in
  let '(left_line, right_line) := lane_lines height lines in
  line_image <- draw_lane line_image left_line (0, 0, 255) ;;
  line_image <- draw_lane line_image right_line (0, 255, 0) ;;
  result <- cv2_addWeighted image (8 # 10) line_image 1 0 ;;
  Ret (annotate width result left_line right_line).

(** The [try] block, lines 53-176. The first component is what the local
    variable [image] is bound to when the block is left: the argument if
    the resize raised, the resized frame afterwards (line 54 rebinds it). *)
Definition try_block (image : PyImage) : PyImage * exc (Mat * dict) :=
  match cv2_resize K image (640, 480) with
  | Raise e => (image, Raise e)
  | Ret resized => (Some resized, pipeline resized)
  end.

(** Lines 49-180. *)
Definition process_image (image : PyImage) : exc (PyImage * dict) :=
  let '(image', outcome) := try_block image in
  try_except
    (r <- outcome ;; Ret (Some (fst r), snd r))
    (fun _ => Ret (image', [])).

End WithKernels.

End Pipeline.
Export Pipeline.

(* ================================================================== *)
(** ** Concrete scenes

    Kernels for frames without texture: every interpolation, blur and
    luminance kernel maps a uniformly coloured frame to a uniformly coloured
    one, a uniform frame has no edges, and the Hough stage reports the
    segments of the scene. The least-squares solver is the exact one. *)

Module Scenes.

Definition sumZ (l : list Z) : Z := fold_right Z.add 0 l.

Definition dotZ (a b : list Z) : Z :=
  sumZ (map (fun p => fst p * snd p) (combine a b)).

(** Exact degree-1 least squares: the solution of the normal equations. *)
Definition lsq_fit (xs ys : list Z) : Q * Q :=
  let n := Z.of_nat (List.length xs) in
  let sx := sumZ xs in
  let sy := sumZ ys in
  let sxx := dotZ xs xs in
  let sxy := dotZ xs ys in
  let slope :=
    Qred (inject_Z (n * sxy - sx * sy) / inject_Z (n * sxx - sx * sx)) in
  let intercept :=
    Qred ((inject_Z sy - slope * inject_Z sx) / inject_Z n) in
  (slope, intercept).

(** Even-odd rule on the three edges of a triangle, enough for the
    region of interest. *)
Definition side (a b : Point) (i j : Z) : Z :=
  (fst b - fst a) * (i - snd a) - (snd b - snd a) * (j - fst a).

Definition triangle_covers (polygon : list Point) (i j : Z) : bool :=
  match polygon with
  | [a; b; c] =>
      let s1 := side a b i j in
      let s2 := side b c i j in
      let s3 := side c a i j in
      ((0 <=? s1) && (0 <=? s2) && (0 <=? s3))
      || ((s1 <=? 0) && (s2 <=? 0) && (s3 <=? 0))
  | _ => false
  end.

(** A pixel is on a thick line when it is within [thickness] of the
    supporting line and inside the bounding box of the endpoints. *)
Definition thick_line_covers (p q : Point) (thickness i j : Z) : bool :=
  let d := side p q i j in
  let len2 := (fst q - fst p) * (fst q - fst p)
              + (snd q - snd p) * (snd q - snd p) in
  (4 * d * d <=? thickness * thickness * len2)
  && (Z.min (fst p) (fst q) - thickness <=? j)
  && (j <=? Z.max (fst p) (fst q) + thickness)
  && (Z.min (snd p) (snd q) - thickness <=? i)
  && (i <=? Z.max (snd p) (snd q) + thickness).

Definition scene (segments : option (list Segment)) : Kernels :=
  {| resize_px := fun m _ _ _ _ c => px m 0 0 c;
     gray_px := fun m i j _ =>
       round_half_even
         ((114 # 1000) * inject_Z (px m i j 0)
          + (587 # 1000) * inject_Z (px m i j 1)
          + (299 # 1000) * inject_Z (px m i j 2))%Q;
     blur_px := fun m _ _ i j c => px m i j c;
     canny_px := fun _ _ _ _ _ _ => 0;
     poly_covers := triangle_covers;
     hough := fun _ _ => segments;
     line_covers := thick_line_covers;
     text_covers := fun _ _ _ _ => false;
     polyfit1 := lsq_fit |}.

(** A scene with nothing in it. *)
Definition K_flat : Kernels := scene None.

(** A road: one marking falling to the right of the image (negative
    slope), one rising (positive slope), both inside the region of
    interest. *)
Definition left_marking : Segment := (200, 470, 280, 310).
Definition right_marking : Segment := (460, 470, 380, 310).
Definition K_road : Kernels := scene (Some [left_marking; right_marking]).

(** The same road seen from the middle of the lane, and the lines fitted
    to its markings. The fitted lines meet the rows 480 and 288 half-way
    between two columns (at 194.5 and 446.5, at 290.5 and 350.5), so the
    truncated ends do not depend on the rounding of the fit. *)
Definition centred_markings : list Segment :=
  [ (200, 469, 280, 309); (440, 467, 360, 307) ].
Definition centred_left : LaneLine := (194, 480, 290, 288).
Definition centred_right : LaneLine := (446, 480, 350, 288).

(** The lines fitted to the markings of [K_road]. *)
Definition road_left : LaneLine := (195, 480, 291, 288).
Definition road_right : LaneLine := (465, 480, 369, 288).

Definition uniform_frame (h w channels v : Z) : Mat :=
  mkMat h w channels (fun _ _ _ => v).

End Scenes.
Export Scenes.

(* ================================================================== *)
(** ** Vocabulary of the properties *)

Module Vocabulary.

(** [image.shape[:2]]. *)
Definition dims (m : Mat) : Z * Z := (rows m, cols m).

(** A frame the resize rejects: [None], or an array with no rows or no
    columns (the dimensions of an array are never negative). *)
Definition malformed (img : PyImage) : Prop :=
  match img with
  | None => True
  | Some m => rows m <= 0 \/ cols m <= 0
  end.

(** A colour frame as the decoder delivers it: not empty, three channels. *)
Definition well_formed (m : Mat) : Prop :=
  0 < rows m /\ 0 < cols m /\ chans m = 3.

(** The outcome of the Hough stage when nothing was found: [None], or an
    array without rows. *)
Definition zero_segments (lines : option (list Segment)) : Prop :=
  lines = None \/ lines = Some [].

(** Lines 54-76 in one piece: the detected segments of an input. *)
Definition detected (K : Kernels) (image : PyImage)
  : exc (option (list Segment)) :=
  resized <- cv2_resize K image (640, 480) ;;
  detect_lines K resized.

(** The value [cv2.addWeighted(image, 0.8, line_image, 1, 0)] gives a
    channel value [v] under an empty overlay. *)
Definition dimmed (v : Z) : Z :=
  saturate_u8 (round_half_even (inject_Z v * (8 # 10) + inject_Z 0 * 1 + 0)%Q).

(** The slope of a segment without the [int32] wrap-around. *)
Definition exact_slope (s : Segment) : Q :=
  let '(x1, y1, x2, y2) := s in
  (inject_Z (y2 - y1) / inject_Z (x2 - x1))%Q.

Definition vertical (s : Segment) : Prop :=
  let '(x1, _, x2, _) := s in x2 = x1.

(** Coordinates whose differences stay inside [int32]; every pixel
    coordinate of a frame is. *)
Definition small (z : Z) : Prop := - 2 ^ 30 <= z < 2 ^ 30.

Definition small_segment (s : Segment) : Prop :=
  let '(x1, y1, x2, y2) := s in small x1 /\ small y1 /\ small x2 /\ small y2.

(** The three-way decision of the loop body, on the exact slope. *)
Definition keeps_left (s : Segment) : bool :=
  let '(x1, _, x2, _) := s in
  negb (x2 - x1 =? 0)
  && negb (Qlt_bool (Qabs (exact_slope s)) (1 # 2))
  && Qlt_bool (exact_slope s) 0.

Definition keeps_right (s : Segment) : bool :=
  let '(x1, _, x2, _) := s in
  negb (x2 - x1 =? 0)
  && negb (Qlt_bool (Qabs (exact_slope s)) (1 # 2))
  && negb (Qlt_bool (exact_slope s) 0).

(** The endpoint coordinates in the order they are collected. *)
Definition xs_of (lines : list Segment) : list Z :=
  flat_map (fun s : Segment => let '(x1, _, x2, _) := s in [x1; x2]) lines.

Definition ys_of (lines : list Segment) : list Z :=
  flat_map (fun s : Segment => let '(_, y1, _, y2) := s in [y1; y2]) lines.

(** [x = (y - b) / m] as the code solves it, with its fallback. *)
Definition solve_x (m b : Q) (y : Z) : Z :=
  if Qeq_bool m 0 then 0 else int_of_float ((inject_Z y - b) / m).

End Vocabulary.
Export Vocabulary.

(* ================================================================== *)
(** ** The route [process_frame] (lines 20-47) *)

Module Route.

(** The parsed request body, [request.json]; an object is the dictionary
    the parser built from it. *)
#[warnings="-register-all"]
Inductive json : Type :=
| JNull
| JBool (b : bool)
| JNumber (q : Q)
| JString (s : string)
| JArray (items : list json)
| JObject (members : list (string * json)).

(** What a request carries: a body the JSON parser accepts, or one it
    rejects (then [request.json] raises). *)
Inductive Request : Type :=
| Body (data : json)
| Unparsable.

(** The exceptions the handler of line 45 meets. *)
Inductive Failure : Type :=
| BadRequest
| TypeError
| KeyError
| AttributeError
| IndexError
| binascii_Error
| cv2_failure (e : PyExc).

Inductive result (A : Type) : Type :=
| Ok (a : A)
| Fail (f : Failure).
Arguments Ok {A} a.
Arguments Fail {A} f.

Definition rbind {A B : Type} (c : result A) (k : A -> result B) : result B :=
  match c with
  | Ok a => k a
  | Fail f => Fail f
  end.

Definition of_exc {A : Type} (c : exc A) : result A :=
  match c with
  | Ret a => Ok a
  | Raise e => Fail (cv2_failure e)
  end.

(** [jsonify(...)] with status 200, or [jsonify({'error': str(e)}), 500]. *)
Inductive Response : Type :=
| Json200 (image : string) (lanes : dict)
| Json500 (error : Failure).

Definition request_json (r : Request) : result json :=
  match r with
  | Body data => Ok data
  | Unparsable => Fail BadRequest
  end.

Fixpoint members_get (members : list (string * json)) (key : string)
  : option json :=
  match members with
  | [] => None
  | (k, v) :: rest => if String.eqb k key then Some v else members_get rest key
  end.

(** [data[key]] for a string key: only a dictionary can be subscripted
    with it. *)
Definition getitem (data : json) (key : string) : result json :=
  match data with
  | JObject members =>
      match members_get members key with
      | Some v => Ok v
      | None => Fail KeyError
      end
  | _ => Fail TypeError
  end.

(** [s.split(sep)] for a one-character separator. *)
Fixpoint split_on (sep : Ascii.ascii) (s : string) : list string :=
  match s with
  | EmptyString => [EmptyString]
  | String c rest =>
      if Ascii.eqb c sep then EmptyString :: split_on sep rest
      else
        match split_on sep rest with
        | field :: fields => String c field :: fields
        | [] => [String c EmptyString]
        end
  end.

(** [v.split(',')]: only a string has the method. *)
Definition str_split (v : json) : result (list string) :=
  match v with
  | JString s => Ok (split_on ","%char s)
  | _ => Fail AttributeError
  end.

(** [l[n]]. *)
Definition list_index {A : Type} (l : list A) (n : nat) : result A :=
  match nth_error l n with
  | Some a => Ok a
  | None => Fail IndexError
  end.

(** The codecs: base64 and the image formats. No property of them is
    assumed. *)
Record Codecs : Type := mkCodecs {
  (** [base64.b64decode]: [None] when it raises [binascii.Error] *)
  b64decode : string -> option (list Byte.byte);
  (** [base64.b64encode(_).decode('utf-8')] *)
  b64encode : list Byte.byte -> string;
  (** [cv2.imdecode(_, cv2.IMREAD_COLOR)]: [None] when the bytes are not an
      image *)
  imdecode : list Byte.byte -> PyImage;
  (** the JPEG encoder behind [cv2.imencode('.jpg', _)] *)
  imencode_jpg : Mat -> exc (list Byte.byte)
}.

Section WithCodecs.
Variable K : Kernels.
Variable C : Codecs.

Definition base64_b64decode (s : string) : result (list Byte.byte) :=
  match b64decode C s with
  | Some bytes => Ok bytes
  | None => Fail binascii_Error
  end.

(** [cv2.imdecode] asserts a non-empty buffer. *)
Definition cv2_imdecode (buf : list Byte.byte) : exc PyImage :=
  match buf with
  | [] => Raise cv2_error
  | _ => Ret (imdecode C buf)
  end.

(** [cv2.imencode('.jpg', img)] asserts an image that is not empty. *)
Definition cv2_imencode (img : PyImage) : exc (list Byte.byte) :=
  match img with
  | None => Raise cv2_error
  | Some m => if empty m then Raise cv2_error else imencode_jpg C m
  end.

(** Lines 26-44, the [try] block. *)
Definition process_frame_body (request : Request) : result (string * dict) :=
  rbind (request_json request) (fun data =>
  rbind (getitem data "image") (fun v =>
  rbind (str_split v) (fun fields =>
  rbind (list_index fields 1) (fun image_data =>
  rbind (base64_b64decode image_data) (fun image_bytes =>
  rbind (of_exc (cv2_imdecode image_bytes)) (fun image =>
  rbind (of_exc (process_image K image)) (fun processed =>
  let '(result_image, lane_info) := processed in
  rbind (of_exc (cv2_imencode result_image)) (fun buffer =>
  let result_image_base64 := b64encode C buffer in
  Ok (("data:image/jpeg;base64," ++ result_image_base64)%string,
      lane_info))))))))).

(** Lines 26-32 on their own: from the request to the decoded frame. *)
Definition decode_request (request : Request) : result PyImage :=
  rbind (request_json request) (fun data =>
  rbind (getitem data "image") (fun v =>
  rbind (str_split v) (fun fields =>
  rbind (list_index fields 1) (fun image_data =>
  rbind (base64_b64decode image_data) (fun image_bytes =>
  of_exc (cv2_imdecode image_bytes)))))).

(** Lines 20-47. *)
Definition process_frame (request : Request) : Response :=
  match process_frame_body request with
  | Ok (image, lanes) => Json200 image lanes
  | Fail e => Json500 e
  end.

End WithCodecs.

(** A request as the page sends it: [{"image": <data URL>}]. *)
Definition frame_request (data_url : string) : Request :=
  Body (JObject [ ("image"%string, JString data_url) ]).

Definition has_comma (s : string) : Prop :=
  exists a b, s = (a ++ String ","%char b)%string.

(** A codec pair for the scenes: bytes are written as they are and every
    non-empty buffer decodes to the same small grey frame. *)
Definition plain_codecs : Codecs :=
  mkCodecs
    (fun s => Some (map byte_of_ascii (list_ascii_of_string s)))
    (fun bytes => string_of_list_ascii (map ascii_of_byte bytes))
    (fun _ => Some (mkMat 2 2 3 (fun _ _ _ => 90)))
    (fun _ => Ret [Byte.x4a; Byte.x46]).

(** Codecs for bytes that are not an image. *)
Definition deaf_codecs : Codecs :=
  mkCodecs (b64decode plain_codecs) (b64encode plain_codecs)
           (fun _ => None) (imencode_jpg plain_codecs).

Fixpoint comma_free (s : string) : bool :=
  match s with
  | EmptyString => true
  | String c rest => negb (Ascii.eqb c ","%char) && comma_free rest
  end.

End Route.
Export Route.

(* ================================================================== *)
(** ** Start-up: the [web] directory and its page (lines 182-368) *)

Module Startup.

Inductive node : Type :=
| File (content : string)
| Dir.

(** A path relative to the working directory, by components. *)
Definition path : Type := list string.

Definition fs : Type := path -> option node.

Inductive OSError : Type :=
| FileExistsError
| FileNotFoundError
| NotADirectoryError
| IsADirectoryError.

Definition path_eqb (p q : path) : bool :=
  if list_eq_dec string_dec p q then true else false.

Definition update (f : fs) (p : path) (n : node) : fs :=
  fun q => if path_eqb q p then Some n else f q.

(** The entry above a path; the working directory itself is a directory. *)
Definition parent_node (f : fs) (p : path) : option node :=
  match removelast p with
  | [] => Some Dir
  | q => f q
  end.

(** Every entry sits in a directory. *)
Definition well_formed_fs (f : fs) : Prop :=
  forall p, f p <> None -> p <> [] /\ parent_node f p = Some Dir.

(** [os.path.exists(p)]. *)
Definition os_path_exists (f : fs) (p : path) : bool :=
  match f p with
  | Some _ => true
  | None => false
  end.

(** [os.makedirs(p)] for a path of one component. *)
Definition os_makedirs (f : fs) (p : path) : OSError + fs :=
  match f p with
  | Some _ => inl FileExistsError
  | None => inr (update f p Dir)
  end.

(** [with open(p, 'w') as f: f.write(content)]: creates or truncates. *)
Definition write_file (f : fs) (p : path) (content : string) : OSError + fs :=
  match parent_node f p with
  | None => inl FileNotFoundError
  | Some (File _) => inl NotADirectoryError
  | Some Dir =>
      match f p with
      | Some Dir => inl IsADirectoryError
      | _ => inr (update f p (File content))
      end
  end.

Definition web : path := [ "web"%string ].
Definition web_index_html : path := [ "web"%string; "index.html"%string ].

(** Lines 183-368; [page] is the text of lines 189-368. *)
Definition startup (page : string) (f : fs) : OSError + fs :=
  match (if negb (os_path_exists f web) then os_makedirs f web else inr f) with
  | inl e => inl e
  | inr f1 =>
      if negb (os_path_exists f1 web_index_html)
      then write_file f1 web_index_html page
      else inr f1
  end.

(** A working directory with nothing in it, one where [web] is a regular
    file, one with a page of the owner's. *)
Definition empty_fs : fs := fun _ => None.
Definition web_is_file : fs := update empty_fs web (File "x").
Definition own_page : fs :=
  update (update empty_fs web Dir) web_index_html (File "mine").

End Startup.
Export Startup.

(* ================================================================== *)
(** ** More vocabulary: overlays and geometry *)

Module Overlay.

(** A segment with its endpoints exchanged. *)
Definition flip (s : Segment) : Segment :=
  let '(x1, y1, x2, y2) := s in (x2, y2, x1, y1).

(** Is pixel (row [i], column [j]) under the stroke of a fitted line? *)
Definition under_line (K : Kernels) (l : option LaneLine) (i j : Z) : bool :=
  match l with
  | Some (x1, y1, x2, y2) => line_covers K (x1, y1) (x2, y2) 5 i j
  | None => false
  end.

(** The value of the overlay image at a pixel: the right line is drawn
    after the left one. *)
Definition overlay_value (K : Kernels) (l r : option LaneLine) (i j c : Z)
  : Z :=
  if under_line K r i j then channel (0, 255, 0) c
  else if under_line K l i j then channel (0, 0, 255) c
  else 0.

(** Is it under one of the two texts? They are drawn only when both lines
    are present. *)
Definition under_text (K : Kernels) (width : Z)
           (l r : option LaneLine) (i j : Z) : bool :=
  match l, r with
  | Some l', Some r' =>
      text_covers K (RadiusText (py_round left_curverad 1)) (30, 40) i j
      || text_covers K
           (DeviationText (py_round (Qabs (deviation_of width l' r')) 3)
                          (direction_of (deviation_of width l' r')))
           (30, 80) i j
  | _, _ => false
  end.

(** Values of an 8-bit image. *)
Definition eight_bit (m : Mat) : Prop :=
  forall i j c, 0 <= px m i j c <= 255.

(** A lane line moved [k] pixels to the right. *)
Definition shift_line (k : Z) (l : LaneLine) : LaneLine :=
  let '(x1, y1, x2, y2) := l in (x1 + k, y1, x2 + k, y2).

(** The endpoints [cv2.line] accepts. *)
Definition drawable (l : LaneLine) : Prop :=
  let '(x1, y1, x2, y2) := l in
  in_int32 x1 = true /\ in_int32 y1 = true
  /\ in_int32 x2 = true /\ in_int32 y2 = true.

(** The road scene with a fit routine that reports an almost level line,
    as rounding can on flat data. *)
Definition K_level : Kernels :=
  mkKernels (resize_px K_road) (gray_px K_road) (blur_px K_road)
            (canny_px K_road) (poly_covers K_road) (hough K_road)
            (line_covers K_road) (text_covers K_road)
            (fun _ _ => (1 # 10000000000, 0)%Q).

(** The value of a channel under a stroke of full intensity. *)
Definition lit (v : Z) : Z :=
  saturate_u8
    (round_half_even (inject_Z v * (8 # 10) + inject_Z 255 * 1 + 0)%Q).

End Overlay.
Export Overlay.

(* ================================================================== *)
(** ** Shapes through the pipeline *)

Section ShapeLemmas.
Variable K : Kernels.

Lemma cv2_resize_Ret (img : PyImage) (w h : Z) (r : Mat) :
  cv2_resize K img (w, h) = Ret r ->
  exists m, img = Some m /\ empty m = false
            /\ rows r = h /\ cols r = w /\ chans r = chans m.
Proof.
  unfold cv2_resize. destruct img as [m|]; [|discriminate].
  destruct (empty m) eqn:E; [discriminate|].
  intros H. injection H as <-. exists m. simpl. auto.
Qed.

Lemma cv2_resize_Raise (img : PyImage) (d : Z * Z) (e : PyExc) :
  cv2_resize K img d = Raise e ->
  img = None \/ exists m, img = Some m /\ empty m = true.
Proof.
  unfold cv2_resize. destruct img as [m|]; [|auto].
  destruct (empty m) eqn:E; [eauto|]. destruct d. discriminate.
Qed.

Lemma cv2_putText_shape (img : Mat) (t : Text) (o : Point) (c : Color) :
  same_shape (cv2_putText K img t o c) img.
Proof. unfold same_shape. simpl. auto. Qed.

Lemma annotate_shape (width : Z) (result : Mat) (l r : option LaneLine) :
  same_shape (fst (annotate K width result l r)) result.
Proof.
  unfold annotate. destruct l as [l|], r as [r|]; simpl;
    unfold same_shape; simpl; auto.
Qed.

Lemma cv2_addWeighted_Ret (a b out : Mat) (alpha beta gamma : Q) :
  cv2_addWeighted a alpha b beta gamma = Ret out ->
  same_shape out a /\ same_shape a b.
Proof.
  unfold cv2_addWeighted. destruct (same_shapeb a b) eqn:E; [|discriminate].
  intros H. injection H as <-. unfold same_shape. simpl.
  unfold same_shapeb in E. apply andb_prop in E as [E E3].
  apply andb_prop in E as [E1 E2].
  apply Z.eqb_eq in E1, E2, E3. auto.
Qed.

Lemma draw_lane_Ret (img out : Mat) (l : option LaneLine) (c : Color) :
  draw_lane K img l c = Ret out -> same_shape out img.
Proof.
  unfold draw_lane. destruct l as [[[[x1 y1] x2] y2]|].
  - unfold cv2_line. simpl.
    destruct (in_int32 x1 && in_int32 y1 && in_int32 x2 && in_int32 y2);
      [|discriminate].
    intros H. injection H as <-. unfold same_shape. simpl. auto.
  - intros H. injection H as <-. unfold same_shape. auto.
Qed.

(** A successful run of lines 58-176, stage by stage. *)
Lemma pipeline_Ret (image out : Mat) (info : dict) :
  pipeline K image = Ret (out, info) ->
  exists lines result,
    detect_lines K image = Ret lines
    /\ same_shape result image
    /\ (out, info)
       = annotate K (cols image) result
                  (fst (lane_lines K (rows image) lines))
                  (snd (lane_lines K (rows image) lines)).
Proof.
  unfold pipeline, bind.
  destruct (detect_lines K image) as [lines|] eqn:D; [|discriminate].
  destruct (lane_lines K (rows image) lines) as [l r] eqn:L.
  destruct (draw_lane K _ l _) as [li1|] eqn:D1; [|discriminate].
  destruct (draw_lane K li1 r _) as [li2|] eqn:D2; [|discriminate].
  destruct (cv2_addWeighted image _ li2 _ _) as [result|] eqn:A;
    [|discriminate].
  intros H. injection H as H.
  apply cv2_addWeighted_Ret in A as [S _].
  exists lines, result. rewrite L. simpl. auto.
Qed.

Lemma pipeline_shape (image out : Mat) (info : dict) :
  pipeline K image = Ret (out, info) -> same_shape out image.
Proof.
  intros H. apply pipeline_Ret in H as (lines & result & _ & S & E).
  pose proof (annotate_shape (cols image) result
                (fst (lane_lines K (rows image) lines))
                (snd (lane_lines K (rows image) lines))) as A.
  rewrite <- E in A. simpl in A.
  unfold same_shape in *. intuition congruence.
Qed.

(** The catch-all handler: [process_image] returns on every input. *)
Lemma process_image_returns (image : PyImage) :
  exists out info, process_image K image = Ret (out, info).
Proof.
  unfold process_image, try_block.
  destruct (cv2_resize K image (640, 480)) as [resized|e]; simpl.
  - destruct (pipeline K resized) as [[out info]|e]; simpl; eauto.
  - eauto.
Qed.

(** What the handler returns when the resize raised. *)
Lemma process_image_resize_raised (image : PyImage) (e : PyExc) :
  cv2_resize K image (640, 480) = Raise e ->
  process_image K image = Ret (image, []).
Proof.
  intros H. unfold process_image, try_block. rewrite H. reflexivity.
Qed.

(** What [process_image] returns once the resize went through. *)
Lemma process_image_resized (image : PyImage) (resized : Mat) :
  cv2_resize K image (640, 480) = Ret resized ->
  process_image K image
  = match pipeline K resized with
    | Ret (out, info) => Ret (Some out, info)
    | Raise _ => Ret (Some resized, [])
    end.
Proof.
  intros H. unfold process_image, try_block. rewrite H. simpl.
  destruct (pipeline K resized) as [[out info]|e]; reflexivity.
Qed.

End ShapeLemmas.

(* ================================================================== *)
(** ** Frame dimensions (C1) *)

Section Dimensions.
Variable K : Kernels.

Lemma empty_false (m : Mat) : empty m = false <-> 0 < rows m /\ 0 < cols m.
Proof.
  unfold empty. rewrite orb_false_iff, !Z.leb_gt. tauto.
Qed.

Lemma cv2_resize_nonempty (m : Mat) (w h : Z) :
  empty m = false ->
  cv2_resize K (Some m) (w, h)
  = Ret (mkMat h w (chans m) (resize_px K m h w)).
Proof. intros E. unfold cv2_resize. rewrite E. reflexivity. Qed.

(** Whatever [process_image] hands back for a non-empty frame is 640 wide
    and 480 high: the annotated frame on success, the resized frame when a
    later stage raised. *)
Lemma process_image_dims (m out : Mat) (info : dict) :
  empty m = false ->
  process_image K (Some m) = Ret (Some out, info) ->
  dims out = (480, 640).
Proof.
  intros E H.
  rewrite (process_image_resized K _ _ (cv2_resize_nonempty m 640 480 E)) in H.
  destruct (pipeline K _) as [[o i]|e] eqn:P.
  - injection H as -> ->. apply pipeline_shape in P.
    destruct P as (R & C & _). unfold dims. rewrite R, C. reflexivity.
  - injection H as <- _. reflexivity.
Qed.

End Dimensions.

(** C1, as stated, fails: a 1280x720 frame is accepted and processed
    without an exception, and the annotated frame is 640x480. *)
Lemma output_dims_differ_from_input_dims :
  exists out info,
    try_block K_flat (Some (uniform_frame 720 1280 3 90))
    = (Some (mkMat 480 640 3 (resize_px K_flat (uniform_frame 720 1280 3 90) 480 640)),
       Ret (out, info))
    /\ process_image K_flat (Some (uniform_frame 720 1280 3 90))
       = Ret (Some out, info)
    /\ dims out = (480, 640)
    /\ dims (uniform_frame 720 1280 3 90) = (720, 1280)
    /\ dims out <> dims (uniform_frame 720 1280 3 90).
Proof.
  eexists. eexists. split; [reflexivity|].
  split; [reflexivity|].
  split; [reflexivity|]. split; [reflexivity|]. discriminate.
Qed.

(** C1 (amended): for every frame the pipeline accepts (a non-empty array),
    the frame returned by [process_image] has the width and height of the
    resized frame, 640x480; they are the input's exactly when the input is
    itself 640x480. *)
Theorem output_dims_are_resized_dims
        (K : Kernels) (m out : Mat) (info : dict) :
  empty m = false ->
  process_image K (Some m) = Ret (Some out, info) ->
  dims out = (480, 640) /\ (dims out = dims m <-> dims m = (480, 640)).
Proof.
  intros E H. pose proof (process_image_dims K m out info E H) as D.
  split; [exact D|]. rewrite D. split; congruence.
Qed.

Lemma output_dims_are_resized_dims_witness :
  exists out info,
    process_image K_road (Some (uniform_frame 720 1280 3 90))
    = Ret (Some out, info)
    /\ dims out = (480, 640)
    /\ (dims out = dims (uniform_frame 720 1280 3 90)
        <-> dims (uniform_frame 720 1280 3 90) = (480, 640)).
Proof.
  eexists. eexists. split; [reflexivity|].
  eapply (output_dims_are_resized_dims
            K_road (uniform_frame 720 1280 3 90)); reflexivity.
Defined.

(* ================================================================== *)
(** ** Failures and the catch-all handler (C2, C9) *)

Section Failures.
Variable K : Kernels.

Lemma cv2_resize_raises_iff (image : PyImage) :
  raises (cv2_resize K image (640, 480)) <-> malformed image.
Proof.
  unfold raises, malformed, cv2_resize. destruct image as [m|].
  - destruct (empty m) eqn:E.
    + split; [|eauto]. intros _. unfold empty in E.
      apply orb_true_iff in E. rewrite !Z.leb_le in E. exact E.
    + split; [intros [e H]; discriminate|].
      apply empty_false in E. lia.
  - split; eauto.
Qed.

Lemma process_image_never_raises (image : PyImage) :
  ~ raises (process_image K image).
Proof.
  destruct (process_image_returns K image) as (out & info & H).
  intros [e E]. congruence.
Qed.

(** When a stage after the resize raises, the handler sees the rebound
    variable: the resized frame is returned. *)
Lemma process_image_late_failure (image : PyImage) (resized : Mat) :
  cv2_resize K image (640, 480) = Ret resized ->
  raises (pipeline K resized) ->
  process_image K image = Ret (Some resized, []).
Proof.
  intros H [e E]. rewrite (process_image_resized K _ _ H), E. reflexivity.
Qed.

End Failures.

(** C2, as stated, fails: [None] is a malformed frame and [process_image]
    returns on it; so does it on an array without rows. *)
Lemma malformed_frame_does_not_raise :
  malformed None
  /\ process_image K_flat None = Ret (None, [])
  /\ ~ raises (process_image K_flat None)
  /\ malformed (Some (uniform_frame 0 640 3 0))
  /\ ~ raises (process_image K_flat (Some (uniform_frame 0 640 3 0))).
Proof.
  split; [exact I|]. split; [reflexivity|].
  split; [intros [e E]; discriminate|].
  split; [left; reflexivity|]. intros [e E]; discriminate.
Qed.

(** C2 (amended): the resize at the head of the pipeline fails if and only
    if the input frame is malformed ([None], zero width or zero height);
    [process_image] does not propagate that failure: it returns at once the
    input itself with an empty metrics dictionary -- no annotated frame, no
    partial metrics -- and it raises on no input at all. *)
Theorem malformed_frame_is_handed_back (K : Kernels) (image : PyImage) :
  (raises (cv2_resize K image (640, 480)) <-> malformed image)
  /\ (malformed image -> process_image K image = Ret (image, []))
  /\ ~ raises (process_image K image).
Proof.
  split; [apply cv2_resize_raises_iff|].
  split; [|apply process_image_never_raises].
  intros M. apply (cv2_resize_raises_iff K) in M as [e E].
  exact (process_image_resize_raised K image e E).
Qed.

(** C9 at a failing input: a 2x2 single-channel array. The resize
    succeeds, the colour conversion raises, and the handler returns the
    resized 640x480 array, not the 2x2 array it was given. *)
Theorem grayscale_frame_comes_back_resized (K : Kernels) :
  exists resized,
    cv2_resize K (Some (uniform_frame 2 2 1 100)) (640, 480) = Ret resized
    /\ pipeline K resized = Raise cv2_error
    /\ process_image K (Some (uniform_frame 2 2 1 100))
       = Ret (Some resized, [])
    /\ dims resized = (480, 640)
    /\ dims (uniform_frame 2 2 1 100) = (2, 2)
    /\ Some resized <> Some (uniform_frame 2 2 1 100).
Proof.
  eexists. split; [reflexivity|].
  split; [reflexivity|]. split; [reflexivity|].
  split; [reflexivity|]. split; [reflexivity|].
  intros H. injection H as H _. discriminate.
Qed.

(* ================================================================== *)
(** ** No segment detected (C3) *)

Lemma dimmed_8bit (v : Z) :
  0 <= v <= 255 -> dimmed v = (8 * v + 5) / 10 /\ (dimmed v = v <-> v <= 2).
Proof.
  intros Hv.
  assert (A : forallb (fun n => let v := Z.of_nat n in
                         (dimmed v =? (8 * v + 5) / 10)
                         && (Bool.eqb (dimmed v =? v) (v <=? 2)))
                      (seq 0 256) = true) by (vm_compute; reflexivity).
  rewrite forallb_forall in A.
  specialize (A (Z.to_nat v)). rewrite Z2Nat.id in A by lia.
  assert (I : In (Z.to_nat v) (seq 0 256)) by (apply in_seq; lia).
  apply A in I. apply andb_prop in I as [I1 I2].
  apply Z.eqb_eq in I1. apply Bool.eqb_prop in I2.
  split; [exact I1|].
  rewrite <- Z.eqb_eq, <- Z.leb_le, I2. tauto.
Qed.

Section NoSegments.
Variable K : Kernels.

Lemma lane_lines_zero (height : Z) (lines : option (list Segment)) :
  zero_segments lines -> lane_lines K height lines = (None, None).
Proof. intros [-> | ->]; reflexivity. Qed.

(** Detection raises on no well-formed frame. *)
Lemma detected_returns (m : Mat) :
  well_formed m -> exists lines, detected K (Some m) = Ret lines.
Proof.
  intros (R & C & Ch).
  assert (E : empty m = false) by (apply empty_false; auto).
  unfold detected, bind. rewrite (cv2_resize_nonempty K m 640 480 E).
  unfold detect_lines, bind, cv2_cvtColor_BGR2GRAY. cbn [chans].
  rewrite Ch. cbn. eauto.
Qed.

Lemma pipeline_zero_segments (image : Mat) (lines : option (list Segment)) :
  chans image = 3 ->
  detect_lines K image = Ret lines ->
  zero_segments lines ->
  exists out,
    pipeline K image = Ret (out, [])
    /\ same_shape out image
    /\ forall i j c, px out i j c = dimmed (px image i j c).
Proof.
  intros C D Z. unfold pipeline, bind. rewrite D.
  rewrite (lane_lines_zero _ _ Z). simpl.
  unfold cv2_addWeighted, same_shapeb. simpl.
  rewrite !Z.eqb_refl, C. simpl.
  eexists. split; [reflexivity|]. split.
  - unfold same_shape. simpl. auto.
  - reflexivity.
Qed.

End NoSegments.

(** C3, as stated, fails: on a uniformly grey 640x480 frame no segment is
    detected and nothing is raised, yet the returned frame is not the
    resized input -- its value at pixel (0,0) is 80, the input's is 100. *)
Lemma grey_frame_comes_back_darker :
  exists resized out,
    well_formed (uniform_frame 480 640 3 100)
    /\ cv2_resize K_flat (Some (uniform_frame 480 640 3 100)) (640, 480)
       = Ret resized
    /\ detected K_flat (Some (uniform_frame 480 640 3 100)) = Ret None
    /\ process_image K_flat (Some (uniform_frame 480 640 3 100))
       = Ret (Some out, [])
    /\ px resized 0 0 0 = 100
    /\ px out 0 0 0 = 80
    /\ ~ mat_eq out resized.
Proof.
  eexists. eexists.
  split; [unfold well_formed; simpl; lia|].
  split; [reflexivity|]. split; [reflexivity|]. split; [reflexivity|].
  split; [reflexivity|]. split; [reflexivity|].
  intros [_ H]. specialize (H 0 0 0).
  assert (R : in_range
                (mkMat 480 640 3
                   (fun i j c =>
                      dimmed (resize_px K_flat (uniform_frame 480 640 3 100)
                                        480 640 i j c))) 0 0 0)
    by (unfold in_range; simpl; lia).
  apply H in R. vm_compute in R. discriminate.
Qed.

(** C3 (amended): for every well-formed frame in which zero line segments
    are detected, nothing is raised: [process_image] returns a frame of the
    resized input's shape with no lane overlay and no text, and an empty
    metrics dictionary. The frame is the resized input blended at weight 0.8
    with an empty overlay -- every channel value [v] becomes
    [round(0.8 * v)] -- so it is equal to the resized input when that one
    is all black. *)
Theorem no_segments_gives_dimmed_frame
        (K : Kernels) (m : Mat) (lines : option (list Segment)) :
  well_formed m ->
  detected K (Some m) = Ret lines ->
  zero_segments lines ->
  exists resized out,
    cv2_resize K (Some m) (640, 480) = Ret resized
    /\ pipeline K resized = Ret (out, [])
    /\ process_image K (Some m) = Ret (Some out, [])
    /\ same_shape out resized
    /\ (forall i j c, px out i j c = dimmed (px resized i j c))
    /\ ((forall i j c, in_range resized i j c -> px resized i j c = 0) ->
        mat_eq out resized).
Proof.
  intros (R & C & Ch) D Z.
  assert (E : empty m = false) by (apply empty_false; auto).
  pose proof (cv2_resize_nonempty K m 640 480 E) as Hr.
  unfold detected, bind in D. rewrite Hr in D.
  destruct (pipeline_zero_segments
              K (mkMat 480 640 (chans m) (resize_px K m 480 640)) lines Ch D Z)
    as (out & P & S & X).
  eexists. exists out. split; [exact Hr|]. split; [exact P|].
  split; [rewrite (process_image_resized K _ _ Hr), P; reflexivity|].
  split; [exact S|]. split; [exact X|].
  intros B. split; [exact S|].
  intros i j c I. rewrite X.
  assert (I' : in_range (mkMat 480 640 (chans m) (resize_px K m 480 640)) i j c).
  { destruct S as (S1 & S2 & S3). unfold in_range in *.
    rewrite <- S1, <- S2, <- S3. exact I. }
  rewrite (B i j c I'). reflexivity.
Qed.

Lemma no_segments_gives_dimmed_frame_witness :
  exists resized out,
    cv2_resize K_flat (Some (uniform_frame 720 1280 3 0)) (640, 480)
    = Ret resized
    /\ pipeline K_flat resized = Ret (out, [])
    /\ process_image K_flat (Some (uniform_frame 720 1280 3 0))
       = Ret (Some out, [])
    /\ same_shape out resized
    /\ (forall i j c, px out i j c = dimmed (px resized i j c))
    /\ ((forall i j c, in_range resized i j c -> px resized i j c = 0) ->
        mat_eq out resized).
Proof.
  apply (no_segments_gives_dimmed_frame
           K_flat (uniform_frame 720 1280 3 0) None).
  - unfold well_formed. simpl. lia.
  - reflexivity.
  - left. reflexivity.
Defined.

(* ================================================================== *)
(** ** The classifier (C4) *)

Section Classifier.

Lemma wrap32_small (z : Z) : - 2 ^ 31 <= z < 2 ^ 31 -> wrap32 z = z.
Proof.
  intros H. unfold wrap32. rewrite Z.mod_small; lia.
Qed.

Lemma sub32_small (a b : Z) : small a -> small b -> sub32 a b = a - b.
Proof.
  unfold small, sub32. intros Ha Hb. apply wrap32_small. lia.
Qed.

Lemma slope_of_small (s : Segment) :
  small_segment s -> slope_of s = exact_slope s.
Proof.
  destruct s as [[[x1 y1] x2] y2]. intros (X1 & Y1 & X2 & Y2).
  unfold slope_of, exact_slope. rewrite !sub32_small; auto.
Qed.

Lemma Qlt_bool_iff (a b : Q) : Qlt_bool a b = true <-> (a < b)%Q.
Proof.
  unfold Qlt_bool. rewrite negb_true_iff, <- not_true_iff_false, Qle_bool_iff.
  split; [apply Qnot_le_lt | apply Qlt_not_le].
Qed.

Lemma Qlt_bool_false_iff (a b : Q) : Qlt_bool a b = false <-> (b <= a)%Q.
Proof.
  unfold Qlt_bool. rewrite negb_false_iff. apply Qle_bool_iff.
Qed.

Lemma classify_step_small (L R : list Segment) (s : Segment) :
  small_segment s ->
  classify_step (L, R) s
  = (L ++ (if keeps_left s then [s] else []),
     R ++ (if keeps_right s then [s] else [])).
Proof.
  destruct s as [[[x1 y1] x2] y2]. intros (X1 & Y1 & X2 & Y2).
  unfold classify_step, keeps_left, keeps_right, exact_slope.
  rewrite !sub32_small by auto.
  set (slope := (inject_Z (y2 - y1) / inject_Z (x2 - x1))%Q).
  destruct (x2 - x1 =? 0); cbn [negb andb]; [now rewrite !app_nil_r|].
  destruct (Qlt_bool (Qabs slope) (1 # 2)); cbn [negb andb];
    [now rewrite !app_nil_r|].
  destruct (Qlt_bool slope 0); cbn [negb andb]; now rewrite !app_nil_r.
Qed.

Lemma classify_fold (ls L R : list Segment) :
  Forall small_segment ls ->
  fold_left classify_step ls (L, R)
  = (L ++ filter keeps_left ls, R ++ filter keeps_right ls).
Proof.
  intros F. revert L R.
  induction F as [|s ls Hs F IH]; intros L R; cbn [fold_left filter].
  - now rewrite !app_nil_r.
  - rewrite (classify_step_small L R s Hs), IH.
    destruct (keeps_left s), (keeps_right s);
      rewrite <- ?app_assoc; cbn [app]; rewrite ?app_nil_r; reflexivity.
Qed.

Lemma keeps_left_iff (s : Segment) :
  keeps_left s = true
  <-> ~ vertical s /\ (exact_slope s < 0)%Q
      /\ (1 # 2 <= Qabs (exact_slope s))%Q.
Proof.
  destruct s as [[[x1 y1] x2] y2]. unfold keeps_left, vertical.
  rewrite !andb_true_iff, !negb_true_iff, Z.eqb_neq,
          Qlt_bool_false_iff, Qlt_bool_iff.
  intuition lia.
Qed.

Lemma keeps_right_iff (s : Segment) :
  keeps_right s = true
  <-> ~ vertical s /\ (0 < exact_slope s)%Q
      /\ (1 # 2 <= Qabs (exact_slope s))%Q.
Proof.
  destruct s as [[[x1 y1] x2] y2]. unfold keeps_right, vertical.
  rewrite !andb_true_iff, !negb_true_iff, Z.eqb_neq, !Qlt_bool_false_iff.
  split.
  - intros [[V A] P]. split; [lia|]. split; [|exact A].
    apply Qle_lt_or_eq in P as [P | P]; [exact P|].
    exfalso. rewrite <- P in A. vm_compute in A. apply A. reflexivity.
  - intros (V & P & A). split; [split; [lia | exact A]|].
    apply Qlt_le_weak. exact P.
Qed.

End Classifier.

Lemma classify_filters (lines : list Segment) :
  Forall small_segment lines ->
  classify (Some lines) = (filter keeps_left lines, filter keeps_right lines).
Proof.
  intros F. unfold classify. now rewrite (classify_fold lines [] [] F).
Qed.

Lemma kept_or_discarded (s : Segment) :
  (vertical s \/ (Qabs (exact_slope s) < 1 # 2)%Q)
  <-> keeps_left s = false /\ keeps_right s = false.
Proof.
  rewrite <- !not_true_iff_false, keeps_left_iff, keeps_right_iff.
  split.
  - intros [V | A]; split; intros (V' & _ & A'); try contradiction;
      exact (Qlt_not_le _ _ A A').
  - intros [NL NR].
    assert (D : vertical s \/ ~ vertical s).
    { destruct s as [[[x1 y1] x2] y2]. unfold vertical. lia. }
    destruct D as [V | V]; [left; exact V|]. right.
    destruct (Qlt_le_dec (Qabs (exact_slope s)) (1 # 2)) as [A | A];
      [exact A|]. exfalso.
    destruct (Q_dec (exact_slope s) 0) as [[N | P] | Z].
    + apply NL. auto.
    + apply NR. auto.
    + rewrite Z in A. vm_compute in A. apply A. reflexivity.
Qed.

(** C4: a detected segment is discarded when it is vertical or when the
    magnitude of its slope is below 0.5 (a slope of exactly 0.5 is kept);
    otherwise it is appended to the left candidates when the slope is
    negative and to the right candidates when it is positive. Hence every
    retained segment has slope magnitude at least 0.5 and the sign of its
    side. *)
Theorem classify_by_slope (lines : list Segment) :
  Forall small_segment lines ->
  let left_lines := fst (classify (Some lines)) in
  let right_lines := snd (classify (Some lines)) in
  left_lines = filter keeps_left lines
  /\ right_lines = filter keeps_right lines
  /\ (forall s, In s lines ->
        ((vertical s \/ (Qabs (exact_slope s) < 1 # 2)%Q)
         <-> ~ In s left_lines /\ ~ In s right_lines)
        /\ (~ vertical s -> (Qabs (exact_slope s) == 1 # 2)%Q ->
            In s left_lines \/ In s right_lines)
        /\ (~ vertical s -> (1 # 2 <= Qabs (exact_slope s))%Q ->
            ((exact_slope s < 0)%Q <-> In s left_lines)
            /\ ((0 < exact_slope s)%Q <-> In s right_lines)))
  /\ (forall s, In s left_lines ->
        In s lines /\ ~ vertical s
        /\ (1 # 2 <= Qabs (exact_slope s))%Q /\ (exact_slope s < 0)%Q)
  /\ (forall s, In s right_lines ->
        In s lines /\ ~ vertical s
        /\ (1 # 2 <= Qabs (exact_slope s))%Q /\ (0 < exact_slope s)%Q).
Proof.
  intros F. rewrite (classify_filters lines F). cbn [fst snd]. cbv zeta.
  split; [reflexivity|]. split; [reflexivity|].
  split; [|split].
  - intros s I. rewrite !filter_In, kept_or_discarded.
    split; [|split].
    + rewrite <- !not_true_iff_false. tauto.
    + intros V E.
      destruct (keeps_left s) eqn:KL; [left; auto|].
      destruct (keeps_right s) eqn:KR; [right; auto|].
      exfalso. assert (D := proj2 (kept_or_discarded s) (conj KL KR)).
      destruct D as [D | D]; [contradiction|].
      rewrite E in D. vm_compute in D. discriminate.
    + intros V A. rewrite keeps_left_iff, keeps_right_iff. tauto.
  - intros s I. apply filter_In in I as [I KL].
    apply keeps_left_iff in KL. tauto.
  - intros s I. apply filter_In in I as [I KR].
    apply keeps_right_iff in KR. tauto.
Qed.

Lemma classify_by_slope_witness :
  fst (classify (Some [ (0, 0, 2, 1); (0, 0, 2, -1); (0, 0, 3, 1);
                        (5, 5, 5, 9); (0, 0, 1, -3) ]))
  = [ (0, 0, 2, -1); (0, 0, 1, -3) ]
  /\ snd (classify (Some [ (0, 0, 2, 1); (0, 0, 2, -1); (0, 0, 3, 1);
                           (5, 5, 5, 9); (0, 0, 1, -3) ]))
     = [ (0, 0, 2, 1) ].
Proof.
  assert (F : Forall small_segment
                [ (0, 0, 2, 1); (0, 0, 2, -1); (0, 0, 3, 1);
                  (5, 5, 5, 9); (0, 0, 1, -3) ]).
  { repeat constructor; unfold small; simpl; lia. }
  pose proof (classify_by_slope _ F) as H. cbv zeta in H.
  split; [refine (eq_trans (proj1 H) _)
         | refine (eq_trans (proj1 (proj2 H)) _)]; reflexivity.
Defined.

(* ================================================================== *)
(** ** Lateral deviation and its label (C5) *)

Section Deviation.
Local Open Scope Q_scope.

Lemma Qminus_neg_iff (a b : Q) : a - b < 0 <-> a < b.
Proof.
  rewrite (Qlt_minus_iff a b), (Qlt_minus_iff (a - b) 0).
  assert (E : 0 + - (a - b) == b + - a) by ring.
  rewrite E. tauto.
Qed.

Lemma Qminus_pos_iff (a b : Q) : 0 < a - b <-> b < a.
Proof.
  rewrite (Qlt_minus_iff b a), (Qlt_minus_iff 0 (a - b)).
  assert (E : a - b + - 0 == a + - b) by ring.
  rewrite E. tauto.
Qed.

Lemma metres_per_pixel_pos (width : Z) :
  (0 < width)%Z -> 0 < (37 # 10) / inject_Z width.
Proof.
  intros W. apply Qmult_lt_0_compat; [reflexivity|].
  apply Qinv_lt_0_compat. unfold Qlt. simpl. lia.
Qed.

Lemma deviation_scaled (width : Z) (l r : LaneLine) :
  deviation_of width l r
  == (vehicle_center_of width - lane_center_of l r)
     * ((37 # 10) / inject_Z width).
Proof. unfold deviation_of, Qdiv. ring. Qed.

Lemma deviation_neg_iff (width : Z) (l r : LaneLine) :
  (0 < width)%Z ->
  deviation_of width l r < 0
  <-> vehicle_center_of width < lane_center_of l r.
Proof.
  intros W. rewrite deviation_scaled.
  rewrite <- (Qminus_neg_iff (vehicle_center_of width) (lane_center_of l r)).
  pose proof (metres_per_pixel_pos width W) as P.
  set (d := vehicle_center_of width - lane_center_of l r) in *.
  set (c := (37 # 10) / inject_Z width) in *.
  rewrite <- (Qmult_lt_r d 0 c P), Qmult_0_l. tauto.
Qed.

Lemma deviation_pos_iff (width : Z) (l r : LaneLine) :
  (0 < width)%Z ->
  0 < deviation_of width l r
  <-> lane_center_of l r < vehicle_center_of width.
Proof.
  intros W. rewrite deviation_scaled.
  rewrite <- (Qminus_pos_iff (vehicle_center_of width) (lane_center_of l r)).
  pose proof (metres_per_pixel_pos width W) as P.
  set (d := vehicle_center_of width - lane_center_of l r) in *.
  set (c := (37 # 10) / inject_Z width) in *.
  rewrite <- (Qmult_lt_r 0 d c P), Qmult_0_l. tauto.
Qed.

Lemma direction_left_iff (deviation : Q) :
  direction_of deviation = "left"%string <-> deviation < 0.
Proof.
  unfold direction_of. destruct (Qlt_bool deviation 0) eqn:E.
  - apply Qlt_bool_iff in E. tauto.
  - apply Qlt_bool_false_iff in E. split; [discriminate|].
    intros H. exfalso. exact (Qlt_not_le _ _ H E).
Qed.

Lemma direction_right_iff (deviation : Q) :
  direction_of deviation = "right"%string <-> 0 <= deviation.
Proof.
  unfold direction_of. destruct (Qlt_bool deviation 0) eqn:E.
  - apply Qlt_bool_iff in E. split; [discriminate|].
    intros H. exfalso. exact (Qlt_not_le _ _ E H).
  - apply Qlt_bool_false_iff in E. tauto.
Qed.

End Deviation.

(** C5, as stated, fails: with the lane lines meeting the bottom of a
    640-wide frame at x = 194 and x = 446 the lane centre is the vehicle
    centre, the deviation is 0 and not greater than 0, and the label is
    "right". These are the lines an exact fit gives for two symmetric
    markings. *)
Lemma centred_vehicle_is_labelled_right :
  lane_lines (scene None) 480
             (Some centred_markings)
  = (Some centred_left, Some centred_right)
  /\ (lane_center_of centred_left centred_right
      == vehicle_center_of 640)%Q
  /\ (deviation_of 640 centred_left centred_right == 0)%Q
  /\ ~ (0 < deviation_of 640 centred_left centred_right)%Q
  /\ direction_of (deviation_of 640 centred_left centred_right)
     = "right"%string.
Proof.
  split; [vm_compute; reflexivity|].
  split; [reflexivity|]. split; [reflexivity|].
  split; [|reflexivity]. intros H. vm_compute in H. discriminate.
Qed.

(** C5 (amended): whenever both lane lines are present, the deviation equals
    (vehicle_center - lane_center) * (3.7 / frame_width), where lane_center
    is the midpoint of the two lines' bottom x-coordinates and
    vehicle_center is frame_width / 2; the rendered direction label is
    "left" exactly when the deviation is negative (lane_center >
    vehicle_center) and "right" exactly when the deviation is zero or
    positive (lane_center <= vehicle_center). *)
Theorem deviation_and_direction
        (K : Kernels) (width : Z) (result : Mat) (l r : LaneLine) :
  0 < width ->
  let lane_center := lane_center_of l r in
  let vehicle_center := vehicle_center_of width in
  let deviation := deviation_of width l r in
  let direction := direction_of deviation in
  (lane_center == (inject_Z (bottom_x l) + inject_Z (bottom_x r)) / 2)%Q
  /\ (vehicle_center == inject_Z width / 2)%Q
  /\ (deviation
      == (vehicle_center - lane_center) * ((37 # 10) / inject_Z width))%Q
  /\ annotate K width result (Some l) (Some r)
     = (cv2_putText K
          (cv2_putText K result (RadiusText (py_round left_curverad 1))
                       (30, 40) white)
          (DeviationText (py_round (Qabs deviation) 3) direction)
          (30, 80) white,
        lane_info_of deviation)
  /\ dict_get (lane_info_of deviation) "deviation" = Some (PyFloat deviation)
  /\ (direction = "left"%string <-> (deviation < 0)%Q)
  /\ (direction = "right"%string <-> (0 <= deviation)%Q)
  /\ ((deviation < 0)%Q <-> (vehicle_center < lane_center)%Q)
  /\ ((0 <= deviation)%Q <-> (lane_center <= vehicle_center)%Q)
  /\ ((lane_center < vehicle_center)%Q ->
      (0 < deviation)%Q /\ direction = "right"%string)
  /\ ((vehicle_center < lane_center)%Q ->
      (deviation < 0)%Q /\ direction = "left"%string).
Proof.
  intros W. cbv zeta.
  split. { unfold lane_center_of. rewrite inject_Z_plus. reflexivity. }
  split; [reflexivity|].
  split; [apply deviation_scaled|].
  split; [reflexivity|]. split; [reflexivity|].
  split; [apply direction_left_iff|].
  split; [apply direction_right_iff|].
  split; [apply deviation_neg_iff, W|].
  split.
  { split; intros H.
    - apply Qnot_lt_le. intros C. apply (deviation_neg_iff width l r W) in C.
      exact (Qlt_not_le _ _ C H).
    - apply Qnot_lt_le. intros C. apply (deviation_neg_iff width l r W) in C.
      exact (Qlt_not_le _ _ C H). }
  split.
  - intros H. apply (deviation_pos_iff width l r W) in H.
    split; [exact H|]. apply direction_right_iff, Qlt_le_weak, H.
  - intros H. apply (deviation_neg_iff width l r W) in H.
    split; [exact H|]. apply direction_left_iff, H.
Qed.

Lemma deviation_and_direction_witness :
  (deviation_of 640 road_left road_right
   == (vehicle_center_of 640
       - lane_center_of road_left road_right)
      * ((37 # 10) / inject_Z 640))%Q
  /\ (direction_of (deviation_of 640 road_left road_right) = "left"%string
      <-> (deviation_of 640 road_left road_right < 0)%Q).
Proof.
  assert (W : 0 < 640) by lia.
  pose proof (deviation_and_direction
                K_road 640 (uniform_frame 480 640 3 0)
                road_left road_right W) as H.
  cbv zeta in H.
  exact (conj (proj1 (proj2 (proj2 H)))
              (proj1 (proj2 (proj2 (proj2 (proj2 (proj2 H))))))).
Defined.

(* ================================================================== *)
(** ** The averager (C6, C8) *)

Section Averager.
Variable K : Kernels.

Lemma collect_fold (lines : list Segment) (xs ys : list Z) :
  fold_left collect_step lines (xs, ys)
  = (xs ++ xs_of lines, ys ++ ys_of lines).
Proof.
  revert xs ys. induction lines as [|[[[x1 y1] x2] y2] lines IH];
    intros xs ys; cbn [fold_left xs_of ys_of flat_map].
  - now rewrite !app_nil_r.
  - unfold collect_step at 2. rewrite IH, <- !app_assoc. reflexivity.
Qed.

Lemma collect_coords (lines : list Segment) :
  collect lines = (xs_of lines, ys_of lines).
Proof. unfold collect. now rewrite collect_fold. Qed.

Lemma xs_of_length (lines : list Segment) :
  List.length (xs_of lines) = (2 * List.length lines)%nat.
Proof.
  induction lines as [|[[[x1 y1] x2] y2] lines IH]; simpl; [reflexivity|].
  rewrite IH. lia.
Qed.

Lemma ys_of_length (lines : list Segment) :
  List.length (ys_of lines) = (2 * List.length lines)%nat.
Proof.
  induction lines as [|[[[x1 y1] x2] y2] lines IH]; simpl; [reflexivity|].
  rewrite IH. lia.
Qed.

Lemma int_of_six_tenths (height : Z) :
  int_of_float (inject_Z height * (6 # 10)) = Z.quot (height * 6) 10.
Proof. reflexivity. Qed.

Lemma average_lines_nonempty (height : Z) (lines : list Segment) :
  lines <> [] ->
  average_lines K height lines
  = Some (solve_x (fst (polyfit1 K (xs_of lines) (ys_of lines)))
                  (snd (polyfit1 K (xs_of lines) (ys_of lines))) height,
          height,
          solve_x (fst (polyfit1 K (xs_of lines) (ys_of lines)))
                  (snd (polyfit1 K (xs_of lines) (ys_of lines)))
                  (Z.quot (height * 6) 10),
          Z.quot (height * 6) 10).
Proof.
  intros N. unfold average_lines.
  destruct lines as [|s lines]; [contradiction|].
  cbn [List.length Nat.eqb]. rewrite collect_coords.
  rewrite xs_of_length, ys_of_length. cbn [List.length].
  replace (0 <? 2 * S (List.length lines))%nat with true
    by (symmetry; apply Nat.ltb_lt; lia).
  cbn [andb].
  destruct (polyfit1 K (xs_of (s :: lines)) (ys_of (s :: lines))) as [m b].
  cbn [fst snd]. rewrite int_of_six_tenths. unfold solve_x.
  destruct (Qeq_bool m 0); reflexivity.
Qed.

End Averager.

(** C6: for a non-empty candidate set the averager hands all endpoint
    coordinates, two per segment, to the degree-1 least-squares fit of y
    against x and returns a lane line from y = H, the frame bottom, to
    y = int(0.6 H), which is 0.6 H when that is whole (288 for the 480 rows
    of the resized frame); each x is (y - b) / m truncated to an integer,
    or 0 when the fitted slope m is 0. For the empty set the lane line is
    absent. Nothing is raised in either case. *)
Theorem average_lines_fit (K : Kernels) (height : Z) (lines : list Segment) :
  lines <> [] ->
  let m := fst (polyfit1 K (xs_of lines) (ys_of lines)) in
  let b := snd (polyfit1 K (xs_of lines) (ys_of lines)) in
  average_lines K height [] = None
  /\ collect lines = (xs_of lines, ys_of lines)
  /\ exists l,
       average_lines K height lines = Some l
       /\ bottom_y l = height
       /\ top_y l = int_of_float (inject_Z height * (6 # 10))
       /\ (Z.rem height 5 = 0 ->
           (inject_Z (top_y l) == (6 # 10) * inject_Z height)%Q)
       /\ (height = 480 -> top_y l = 288)
       /\ ((m == 0)%Q -> bottom_x l = 0 /\ top_x l = 0)
       /\ (~ (m == 0)%Q ->
           bottom_x l = int_of_float ((inject_Z (bottom_y l) - b) / m)
           /\ top_x l = int_of_float ((inject_Z (top_y l) - b) / m)).
Proof.
  intros N m b.
  split; [reflexivity|]. split; [apply collect_coords|].
  eexists. split; [apply (average_lines_nonempty K height lines N)|].
  cbn [bottom_y top_y bottom_x top_x]. fold m b.
  split; [reflexivity|]. split; [reflexivity|].
  split.
  { intros R. apply Z.rem_divide in R; [|lia]. destruct R as [k ->].
    replace (k * 5 * 6) with (3 * k * 10) by lia.
    rewrite Z.quot_mul by lia.
    unfold Qeq, Qmult, inject_Z. cbn [Qnum Qden]. lia. }
  split; [intros ->; reflexivity|].
  unfold solve_x. split.
  - intros Z. apply Qeq_bool_iff in Z. rewrite Z. auto.
  - intros NZ. destruct (Qeq_bool m 0) eqn:E;
      [apply Qeq_bool_iff in E; contradiction|]. auto.
Qed.

Lemma average_lines_fit_witness :
  average_lines K_road 480 [left_marking] = Some road_left
  /\ average_lines K_road 480 [] = None.
Proof.
  assert (N : [left_marking] <> []) by discriminate.
  pose proof (average_lines_fit K_road 480 [left_marking] N) as H.
  cbv zeta in H. destruct H as (E & _ & l & A & _).
  split; [reflexivity | exact E].
Defined.

(** C8: the averaging step is repeatable. Its result is a function of the
    segment set, of the frame height -- 480 for every frame, whatever its
    size before the resize -- and of the fit routine alone: two runs with
    the same fit routine on equal segment sets return identical lane lines,
    also when they belong to different frames and whatever the other
    kernels are. *)
Theorem average_lines_repeatable
        (K1 K2 : Kernels) (image1 image2 : PyImage) (resized1 resized2 : Mat)
        (lines1 lines2 : list Segment) :
  (forall xs ys, polyfit1 K1 xs ys = polyfit1 K2 xs ys) ->
  cv2_resize K1 image1 (640, 480) = Ret resized1 ->
  cv2_resize K2 image2 (640, 480) = Ret resized2 ->
  lines1 = lines2 ->
  average_lines K1 (rows resized1) lines1
  = average_lines K2 (rows resized2) lines2.
Proof.
  intros F R1 R2 <-.
  apply cv2_resize_Ret in R1 as (_ & _ & _ & -> & _).
  apply cv2_resize_Ret in R2 as (_ & _ & _ & -> & _).
  destruct lines1 as [|s lines]; [reflexivity|].
  assert (N : s :: lines <> []) by discriminate.
  rewrite !average_lines_nonempty by exact N.
  rewrite F. reflexivity.
Qed.

Lemma average_lines_repeatable_witness :
  average_lines K_flat 480 [left_marking; right_marking]
  = average_lines K_road 480 [left_marking; right_marking].
Proof.
  refine (average_lines_repeatable
            K_flat K_road
            (Some (uniform_frame 720 1280 3 90))
            (Some (uniform_frame 480 640 3 10))
            _ _ [left_marking; right_marking]
            [left_marking; right_marking] _ eq_refl eq_refl eq_refl).
  intros xs ys. reflexivity.
Defined.

(* ================================================================== *)
(** ** Metrics (C7) *)

Section Metrics.
Variable K : Kernels.

Lemma annotate_info (width : Z) (result : Mat) (l r : option LaneLine) :
  snd (annotate K width result l r)
  = match l, r with
    | Some l', Some r' => lane_info_of (deviation_of width l' r')
    | _, _ => []
    end.
Proof. destruct l, r; reflexivity. Qed.

(** A filled dictionary only ever comes out of a run that reached the
    metrics stage: the handler returns an empty one. *)
Lemma process_image_metrics_from_pipeline
      (image out : PyImage) (info : dict) :
  process_image K image = Ret (out, info) ->
  info <> [] ->
  exists resized o,
    cv2_resize K image (640, 480) = Ret resized
    /\ pipeline K resized = Ret (o, info)
    /\ out = Some o.
Proof.
  intros H N. destruct (cv2_resize K image (640, 480)) as [resized|e] eqn:R.
  - rewrite (process_image_resized K _ _ R) in H.
    destruct (pipeline K resized) as [[o i]|e] eqn:P.
    + injection H as <- <-. eauto.
    + injection H as _ <-. contradiction.
  - rewrite (process_image_resize_raised K _ _ R) in H.
    injection H as _ <-. contradiction.
Qed.

End Metrics.

(* ================================================================== *)
(** ** The exact solver of the scenes is a least-squares solver *)

Section LeastSquares.
Local Open Scope Q_scope.

(** The fitted pair solves the normal equations: the residuals sum to zero
    and are orthogonal to the abscissae. *)
Lemma lsq_fit_normal_equations (xs ys : list Z) :
  let n := Z.of_nat (List.length xs) in
  (n <> 0)%Z ->
  (n * dotZ xs xs - sumZ xs * sumZ xs <> 0)%Z ->
  let m := fst (lsq_fit xs ys) in
  let b := snd (lsq_fit xs ys) in
  inject_Z (sumZ ys) == m * inject_Z (sumZ xs) + inject_Z n * b
  /\ inject_Z (dotZ xs ys)
     == m * inject_Z (dotZ xs xs) + b * inject_Z (sumZ xs).
Proof.
  intros n Hn Hd m b. subst m b. unfold lsq_fit. fold n. cbn [fst snd].
  set (sx := sumZ xs) in *. set (sy := sumZ ys).
  set (sxx := dotZ xs xs) in *. set (sxy := dotZ xs ys).
  rewrite !Qred_correct.
  assert (Qn : ~ inject_Z n == 0).
  { rewrite (inject_Z_injective n 0). exact Hn. }
  assert (Qd : ~ inject_Z n * inject_Z sxx - inject_Z sx * inject_Z sx == 0).
  { unfold Qminus. rewrite <- !inject_Z_mult, <- inject_Z_opp, <- inject_Z_plus.
    rewrite (inject_Z_injective _ 0). exact Hd. }
  unfold Z.sub. rewrite !inject_Z_plus, !inject_Z_opp, !inject_Z_mult.
  split; field; split; assumption.
Qed.

End LeastSquares.

(** The road scene, end to end: both lines are found, the vehicle is 10
    pixels left of the lane centre. *)
Example road_run :
  exists out,
    process_image K_road (Some (uniform_frame 720 1280 3 90))
    = Ret (Some out, lane_info_of (deviation_of 640 road_left road_right))
    /\ dims out = (480, 640)
    /\ direction_of (deviation_of 640 road_left road_right) = "left"%string
    /\ px out 470 200 2 = 255
    /\ px out 0 0 0 = 72.
Proof.
  eexists. split; [reflexivity|].
  split; [reflexivity|]. split; [reflexivity|].
  split; vm_compute; reflexivity.
Qed.

(* ================================================================== *)
(** ** One-sided and discarded detections *)

Section Sides.
Variable K : Kernels.

Lemma pipeline_info (image out : Mat) (info : dict)
      (lines : option (list Segment)) :
  pipeline K image = Ret (out, info) ->
  detect_lines K image = Ret lines ->
  info = match fst (lane_lines K (rows image) lines),
               snd (lane_lines K (rows image) lines) with
         | Some l, Some r => lane_info_of (deviation_of (cols image) l r)
         | _, _ => []
         end.
Proof.
  intros P D. apply pipeline_Ret in P as (lines' & result & D' & _ & E).
  rewrite D in D'. injection D' as <-.
  rewrite <- annotate_info with (K := K) (result := result).
  rewrite <- E. reflexivity.
Qed.

Lemma lane_lines_small (height : Z) (lines : list Segment) :
  Forall small_segment lines ->
  lane_lines K height (Some lines)
  = (average_lines K height (filter keeps_left lines),
     average_lines K height (filter keeps_right lines)).
Proof.
  intros F. unfold lane_lines. rewrite (classify_filters lines F). reflexivity.
Qed.

Lemma filter_none {A : Type} (p : A -> bool) (l : list A) :
  (forall a, In a l -> p a = false) -> filter p l = [].
Proof.
  induction l as [|a l IH]; intros H; simpl; [reflexivity|].
  rewrite (H a (or_introl eq_refl)). apply IH.
  intros b I. apply H. right. exact I.
Qed.

(** With no lane line on either side the run is the one of an empty
    detection. *)
Lemma pipeline_no_lanes (image : Mat) (lines : option (list Segment)) :
  chans image = 3 ->
  detect_lines K image = Ret lines ->
  lane_lines K (rows image) lines = (None, None) ->
  exists out,
    pipeline K image = Ret (out, [])
    /\ same_shape out image
    /\ forall i j c, px out i j c = dimmed (px image i j c).
Proof.
  intros C D L. unfold pipeline, bind. rewrite D, L. simpl.
  unfold cv2_addWeighted, same_shapeb. simpl.
  rewrite !Z.eqb_refl, C. simpl.
  eexists. split; [reflexivity|]. split.
  - unfold same_shape. simpl. auto.
  - reflexivity.
Qed.

End Sides.

(** X1: when every detected segment has a slope that is zero or positive,
    the left candidate set is empty, there is no left lane line and a
    successful run reports no metrics; likewise on the other side when
    every slope is zero or negative. *)
Theorem one_sided_detection_has_no_metrics
        (K : Kernels) (image out : Mat) (info : dict) (lines : list Segment) :
  pipeline K image = Ret (out, info) ->
  detect_lines K image = Ret (Some lines) ->
  Forall small_segment lines ->
  ((forall s, In s lines -> (0 <= exact_slope s)%Q) ->
   fst (classify (Some lines)) = []
   /\ fst (lane_lines K (rows image) (Some lines)) = None
   /\ info = [])
  /\ ((forall s, In s lines -> (exact_slope s <= 0)%Q) ->
      snd (classify (Some lines)) = []
      /\ snd (lane_lines K (rows image) (Some lines)) = None
      /\ info = []).
Proof.
  intros P D F. pose proof (pipeline_info K _ _ _ _ P D) as I.
  rewrite (lane_lines_small K _ _ F) in *. rewrite (classify_filters _ F).
  cbn [fst snd] in *. split; intros S.
  - assert (E : filter keeps_left lines = []).
    { apply filter_none. intros s Hs. apply not_true_iff_false.
      rewrite keeps_left_iff. intros (_ & N & _).
      exact (Qlt_not_le _ _ N (S s Hs)). }
    rewrite E in *. cbn in I. auto.
  - assert (E : filter keeps_right lines = []).
    { apply filter_none. intros s Hs. apply not_true_iff_false.
      rewrite keeps_right_iff. intros (_ & N & _).
      exact (Qlt_not_le _ _ N (S s Hs)). }
    rewrite E in *. cbn in I.
    destruct (average_lines K (rows image) (filter keeps_left lines));
      auto.
Qed.

Lemma one_sided_detection_has_no_metrics_witness :
  exists out,
    pipeline (scene (Some [right_marking]))
             (mkMat 480 640 3 (fun _ _ _ => 90)) = Ret (out, [])
    /\ fst (classify (Some [right_marking])) = [].
Proof.
  eexists. split; [reflexivity|].
  assert (F : Forall small_segment [right_marking]).
  { repeat constructor; unfold small; simpl; lia. }
  destruct (one_sided_detection_has_no_metrics
              (scene (Some [right_marking]))
              (mkMat 480 640 3 (fun _ _ _ => 90)) _ [] [right_marking]
              eq_refl eq_refl F) as [L _].
  apply L. intros s [<- | []]. vm_compute. discriminate.
Defined.

(** X2: when every detected segment is vertical or has a slope of magnitude
    below 0.5, a three-channel frame is processed as if nothing had been
    detected: no exception, no overlay, every value [v] of the resized frame
    becomes [round(0.8 * v)], and the metrics are empty. *)
Theorem discarded_detections_leave_no_trace
        (K : Kernels) (image : Mat) (lines : list Segment) :
  chans image = 3 ->
  detect_lines K image = Ret (Some lines) ->
  Forall small_segment lines ->
  (forall s, In s lines ->
             vertical s \/ (Qabs (exact_slope s) < 1 # 2)%Q) ->
  classify (Some lines) = ([], [])
  /\ exists out,
       pipeline K image = Ret (out, [])
       /\ same_shape out image
       /\ forall i j c, px out i j c = dimmed (px image i j c).
Proof.
  intros C D F S.
  assert (L : filter keeps_left lines = []).
  { apply filter_none. intros s Hs. apply kept_or_discarded, S, Hs. }
  assert (R : filter keeps_right lines = []).
  { apply filter_none. intros s Hs. apply kept_or_discarded, S, Hs. }
  split; [rewrite (classify_filters _ F), L, R; reflexivity|].
  apply (pipeline_no_lanes K image (Some lines) C D).
  rewrite (lane_lines_small K _ _ F), L, R. reflexivity.
Qed.

Lemma discarded_detections_leave_no_trace_witness :
  classify (Some [ (100, 400, 300, 410); (320, 300, 320, 400) ]) = ([], [])
  /\ exists out,
       pipeline (scene (Some [ (100, 400, 300, 410); (320, 300, 320, 400) ]))
                (mkMat 480 640 3 (fun _ _ _ => 90)) = Ret (out, [])
       /\ same_shape out (mkMat 480 640 3 (fun _ _ _ => 90))
       /\ forall i j c, px out i j c = dimmed 90.
Proof.
  apply (discarded_detections_leave_no_trace
           (scene (Some [ (100, 400, 300, 410); (320, 300, 320, 400) ]))
           (mkMat 480 640 3 (fun _ _ _ => 90))).
  - reflexivity.
  - reflexivity.
  - repeat constructor; unfold small; simpl; lia.
  - intros s [<- | [<- | []]].
    + right. vm_compute. reflexivity.
    + left. reflexivity.
Defined.

(* ================================================================== *)
(** ** What the annotated frame looks like *)

Section Pixels.
Variable K : Kernels.

Lemma draw_lane_px (img out : Mat) (l : option LaneLine) (col : Color) :
  draw_lane K img l col = Ret out ->
  (forall l', l = Some l' -> drawable l')
  /\ forall i j c,
       px out i j c
       = if under_line K l i j then channel col c else px img i j c.
Proof.
  unfold draw_lane, under_line, drawable.
  destruct l as [[[[x1 y1] x2] y2]|].
  - unfold cv2_line. cbn [fst snd].
    destruct (in_int32 x1) eqn:X1; [|discriminate].
    destruct (in_int32 y1) eqn:Y1; [|discriminate].
    destruct (in_int32 x2) eqn:X2; [|discriminate].
    destruct (in_int32 y2) eqn:Y2; [|discriminate].
    cbn [andb]. intros H. injection H as <-. split.
    + intros l' E. injection E as <-. auto.
    + reflexivity.
  - intros H. injection H as <-. split; [discriminate | reflexivity].
Qed.

Lemma channel_white (c : Z) : channel white c = 255.
Proof. unfold channel, white. destruct (c =? 0), (c =? 1); reflexivity. Qed.

Lemma annotate_px (width : Z) (result : Mat) (l r : option LaneLine)
      (i j c : Z) :
  px (fst (annotate K width result l r)) i j c
  = if under_text K width l r i j then 255 else px result i j c.
Proof.
  unfold annotate, under_text. destruct l as [l|], r as [r|]; try reflexivity.
  cbn [fst cv2_putText px]. rewrite !channel_white.
  destruct (text_covers K (RadiusText _) _ i j),
           (text_covers K (DeviationText _ _) _ i j); reflexivity.
Qed.

(** Every pixel of a successful run. *)
Lemma pipeline_pixels (image out : Mat) (info : dict)
      (lines : option (list Segment)) :
  pipeline K image = Ret (out, info) ->
  detect_lines K image = Ret lines ->
  let l := fst (lane_lines K (rows image) lines) in
  let r := snd (lane_lines K (rows image) lines) in
  chans image = 3
  /\ (forall l', l = Some l' \/ r = Some l' -> drawable l')
  /\ forall i j c,
       px out i j c
       = if under_text K (cols image) l r i j then 255
         else saturate_u8
                (round_half_even
                   (inject_Z (px image i j c) * (8 # 10)
                    + inject_Z (overlay_value K l r i j c) * 1 + 0)%Q).
Proof.
  intros P D. cbv zeta. revert P. unfold pipeline, bind. rewrite D.
  destruct (lane_lines K (rows image) lines) as [l r]. cbn [fst snd].
  destruct (draw_lane K _ l _) as [li1|] eqn:D1; [|discriminate].
  destruct (draw_lane K li1 r _) as [li2|] eqn:D2; [|discriminate].
  destruct (cv2_addWeighted image _ li2 _ _) as [result|] eqn:A;
    [|discriminate].
  intros H. injection H as H.
  pose proof (draw_lane_Ret K _ _ _ _ D1) as (_ & _ & C1).
  pose proof (draw_lane_Ret K _ _ _ _ D2) as (_ & _ & C2).
  apply draw_lane_px in D1 as [Dl P1]. apply draw_lane_px in D2 as [Dr P2].
  pose proof (cv2_addWeighted_Ret _ _ _ _ _ _ A) as (_ & _ & _ & C3).
  split; [cbn in C1; congruence|].
  split; [intros l' [E | E]; auto|].
  intros i j c.
  assert (E : out = fst (annotate K (cols image) result l r))
    by (rewrite H; reflexivity).
  rewrite E, annotate_px.
  destruct (under_text K (cols image) l r i j); [reflexivity|].
  revert A. unfold cv2_addWeighted.
  destruct (same_shapeb image li2); [|discriminate].
  intros A. injection A as <-. cbn [px].
  rewrite P2, P1. unfold overlay_value. reflexivity.
Qed.

End Pixels.

Lemma lit_8bit (v : Z) : 0 <= v <= 255 -> lit v = 255.
Proof.
  intros Hv.
  assert (A : forallb (fun n => lit (Z.of_nat n) =? 255) (seq 0 256) = true)
    by (vm_compute; reflexivity).
  rewrite forallb_forall in A.
  specialize (A (Z.to_nat v)). rewrite Z2Nat.id in A by lia.
  apply Z.eqb_eq, A, in_seq. lia.
Qed.

(** X3: on a successful run every pixel that is under neither lane stroke
    nor text keeps the value [round(0.8 * v)] of the resized frame: the
    annotation touches nothing else. *)
Theorem annotation_is_local
        (K : Kernels) (image out : Mat) (info : dict)
        (lines : option (list Segment)) (i j c : Z) :
  pipeline K image = Ret (out, info) ->
  detect_lines K image = Ret lines ->
  under_line K (fst (lane_lines K (rows image) lines)) i j = false ->
  under_line K (snd (lane_lines K (rows image) lines)) i j = false ->
  under_text K (cols image) (fst (lane_lines K (rows image) lines))
             (snd (lane_lines K (rows image) lines)) i j = false ->
  px out i j c = dimmed (px image i j c).
Proof.
  intros P D L R T.
  destruct (pipeline_pixels K _ _ _ _ P D) as (_ & _ & X).
  rewrite X, T. unfold overlay_value. rewrite R, L. reflexivity.
Qed.

Lemma annotation_is_local_witness :
  exists out info,
    pipeline K_road (mkMat 480 640 3 (fun _ _ _ => 90)) = Ret (out, info)
    /\ px out 10 10 0 = dimmed 90.
Proof.
  eexists. eexists. split; [reflexivity|].
  eapply (annotation_is_local
            K_road (mkMat 480 640 3 (fun _ _ _ => 90)) _ _
            (Some [left_marking; right_marking]) 10 10 0);
    reflexivity.
Defined.

(** X4: on a successful run over an 8-bit frame, a pixel under no text is
    drawn as follows: under the right stroke its green channel is 255,
    under the left stroke alone its red channel is 255, and its other two
    channels keep [round(0.8 * v)]; a pixel under a text is white. *)
Theorem lane_strokes_are_red_and_green
        (K : Kernels) (image out : Mat) (info : dict)
        (lines : option (list Segment)) (i j : Z) :
  pipeline K image = Ret (out, info) ->
  detect_lines K image = Ret lines ->
  eight_bit image ->
  let l := fst (lane_lines K (rows image) lines) in
  let r := snd (lane_lines K (rows image) lines) in
  (under_text K (cols image) l r i j = true ->
   forall c, px out i j c = 255)
  /\ (under_text K (cols image) l r i j = false ->
      under_line K r i j = true ->
      px out i j 1 = 255
      /\ px out i j 0 = dimmed (px image i j 0)
      /\ px out i j 2 = dimmed (px image i j 2))
  /\ (under_text K (cols image) l r i j = false ->
      under_line K r i j = false ->
      under_line K l i j = true ->
      px out i j 2 = 255
      /\ px out i j 0 = dimmed (px image i j 0)
      /\ px out i j 1 = dimmed (px image i j 1)).
Proof.
  intros P D B. cbv zeta.
  destruct (pipeline_pixels K _ _ _ _ P D) as (_ & _ & X).
  split; [|split].
  - intros T c. rewrite X, T. reflexivity.
  - intros T R. rewrite !X, T. unfold overlay_value. rewrite R.
    cbn [channel Z.eqb]. split; [apply lit_8bit, B|]. split; reflexivity.
  - intros T R L. rewrite !X, T. unfold overlay_value. rewrite R, L.
    cbn [channel Z.eqb]. split; [apply lit_8bit, B|]. split; reflexivity.
Qed.

Lemma lane_strokes_are_red_and_green_witness :
  exists out info,
    pipeline K_road (mkMat 480 640 3 (fun _ _ _ => 90)) = Ret (out, info)
    /\ px out 470 200 2 = 255
    /\ px out 470 200 0 = dimmed 90
    /\ px out 470 200 1 = dimmed 90.
Proof.
  eexists. eexists. split; [reflexivity|].
  assert (B : eight_bit (mkMat 480 640 3 (fun _ _ _ => 90)))
    by (intros i j c; simpl; lia).
  pose proof (lane_strokes_are_red_and_green
                K_road (mkMat 480 640 3 (fun _ _ _ => 90)) _ _
                (Some [left_marking; right_marking]) 470 200
                eq_refl eq_refl B) as H.
  cbv zeta in H. destruct H as (_ & _ & H).
  apply H; vm_compute; reflexivity.
Defined.

(* ================================================================== *)
(** ** What the handler hands back *)

Section HandBack.
Variable K : Kernels.

Lemma pipeline_three_channels (image out : Mat) (info : dict) :
  pipeline K image = Ret (out, info) -> chans image = 3.
Proof.
  intros P. pose proof P as P'.
  apply pipeline_Ret in P' as (lines & _ & D & _).
  exact (proj1 (pipeline_pixels K _ _ _ _ P D)).
Qed.

End HandBack.

(** X6: a non-empty frame that does not have three channels is never
    annotated: [process_image] returns the bare resized frame and empty
    metrics. *)
Theorem other_channel_counts_are_not_annotated (K : Kernels) (m : Mat) :
  empty m = false ->
  chans m <> 3 ->
  process_image K (Some m)
  = Ret (Some (mkMat 480 640 (chans m) (resize_px K m 480 640)), []).
Proof.
  intros E C.
  rewrite (process_image_resized K _ _ (cv2_resize_nonempty K m 640 480 E)).
  destruct (pipeline K _) as [[out info]|e] eqn:P; [|reflexivity].
  apply pipeline_three_channels in P. contradiction.
Qed.

Lemma other_channel_counts_are_not_annotated_witness :
  process_image K_road (Some (uniform_frame 720 1280 4 90))
  = Ret (Some (mkMat 480 640 4
                     (resize_px K_road (uniform_frame 720 1280 4 90) 480 640)),
         []).
Proof.
  apply (other_channel_counts_are_not_annotated
           K_road (uniform_frame 720 1280 4 90)).
  - reflexivity.
  - simpl. lia.
Defined.

(** X7: the image [process_image] returns is [None] exactly when it was
    given [None], it is an empty array exactly when it was given an empty
    array, and in both cases the metrics are empty. *)
Theorem null_and_empty_frames_come_back
        (K : Kernels) (image out : PyImage) (info : dict) :
  process_image K image = Ret (out, info) ->
  (out = None <-> image = None)
  /\ (forall o, out = Some o ->
                (empty o = true
                 <-> exists m, image = Some m /\ empty m = true))
  /\ (malformed out -> out = image /\ info = []).
Proof.
  intros H.
  destruct (cv2_resize K image (640, 480)) as [resized|e] eqn:R.
  - pose proof (cv2_resize_Ret K _ _ _ _ R) as (m & -> & E & Rr & Rc & _).
    assert (N : empty resized = false).
    { apply empty_false. lia. }
    rewrite (process_image_resized K _ _ R) in H.
    assert (O : exists o, out = Some o /\ empty o = false).
    { destruct (pipeline K resized) as [[o i]|e'] eqn:P.
      - injection H as <- _. exists o. split; [reflexivity|].
        apply pipeline_shape in P as (S1 & S2 & _).
        apply empty_false. lia.
      - injection H as <- _. eauto. }
    destruct O as (o & -> & Eo).
    split; [split; discriminate|]. split.
    + intros o' Eq. injection Eq as <-. split.
      * congruence.
      * intros (m' & Em & E'). injection Em as <-. congruence.
    + unfold malformed. apply empty_false in Eo. lia.
  - rewrite (process_image_resize_raised K _ _ R) in H.
    injection H as <- <-.
    apply cv2_resize_Raise in R.
    split; [tauto|]. split.
    + intros o ->. destruct R as [R | (m & Em & E)]; [discriminate|].
      injection Em as <-. split; eauto.
    + auto.
Qed.

Lemma null_and_empty_frames_come_back_witness :
  process_image K_road (Some (uniform_frame 0 640 3 0))
  = Ret (Some (uniform_frame 0 640 3 0), [])
  /\ (malformed (Some (uniform_frame 0 640 3 0)) ->
      Some (uniform_frame 0 640 3 0) = Some (uniform_frame 0 640 3 0)
      /\ @nil (string * pyval) = []).
Proof.
  split; [reflexivity|].
  exact (proj2 (proj2 (null_and_empty_frames_come_back
                         K_road (Some (uniform_frame 0 640 3 0))
                         (Some (uniform_frame 0 640 3 0)) [] eq_refl))).
Defined.

(** X8: when a fitted lane line has an endpoint that [cv2.line] cannot take
    (outside the range of a C int), no metrics are reported even though the
    line was fitted: [process_image] returns the bare resized frame and an
    empty dictionary. *)
Theorem undrawable_line_gives_no_metrics
        (K : Kernels) (image : PyImage) (resized : Mat)
        (lines : option (list Segment)) (l : LaneLine) :
  cv2_resize K image (640, 480) = Ret resized ->
  detect_lines K resized = Ret lines ->
  fst (lane_lines K 480 lines) = Some l
  \/ snd (lane_lines K 480 lines) = Some l ->
  ~ drawable l ->
  process_image K image = Ret (Some resized, []).
Proof.
  intros R D L N.
  rewrite (process_image_resized K _ _ R).
  destruct (pipeline K resized) as [[out info]|e] eqn:P; [|reflexivity].
  exfalso. apply N.
  destruct (pipeline_pixels K _ _ _ _ P D) as (_ & Dr & _).
  apply Dr. apply cv2_resize_Ret in R as (_ & _ & _ & -> & _). exact L.
Qed.

Lemma undrawable_line_gives_no_metrics_witness :
  fst (lane_lines K_level 480 (Some [left_marking; right_marking]))
  = Some (4800000000000, 480, 2880000000000, 288)
  /\ process_image K_level (Some (uniform_frame 720 1280 3 90))
     = Ret (Some (mkMat 480 640 3
                        (resize_px K_level (uniform_frame 720 1280 3 90)
                                   480 640)),
            []).
Proof.
  split; [reflexivity|].
  apply (undrawable_line_gives_no_metrics
           K_level (Some (uniform_frame 720 1280 3 90)) _
           (Some [left_marking; right_marking])
           (4800000000000, 480, 2880000000000, 288)).
  - reflexivity.
  - reflexivity.
  - left. reflexivity.
  - intros (X & _). vm_compute in X. discriminate.
Defined.

(* ================================================================== *)
(** ** Numbers: deviation and truncation *)

Section Numbers.
Local Open Scope Q_scope.

Lemma inject_Z_pos_neq (z : Z) : (0 < z)%Z -> ~ inject_Z z == 0.
Proof. intros H. rewrite (inject_Z_injective z 0). lia. Qed.

Lemma deviation_in_pixels (width : Z) (l r : LaneLine) :
  (0 < width)%Z ->
  deviation_of width l r
  == inject_Z (width - (bottom_x l + bottom_x r)) * (37 # 20)
     / inject_Z width.
Proof.
  intros W. unfold deviation_of, vehicle_center_of, lane_center_of.
  unfold Z.sub. rewrite !inject_Z_plus, inject_Z_opp, inject_Z_plus.
  field. apply inject_Z_pos_neq, W.
Qed.

End Numbers.

(** X9: when both lane lines meet the bottom edge inside the frame, the
    reported deviation is at most half the assumed lane width: its
    magnitude does not exceed 1.85 m. *)
Theorem deviation_is_within_half_a_lane (width : Z) (l r : LaneLine) :
  0 < width ->
  0 <= bottom_x l <= width ->
  0 <= bottom_x r <= width ->
  (Qabs (deviation_of width l r) <= 37 # 20)%Q.
Proof.
  intros W L R. rewrite (deviation_in_pixels width l r W).
  assert (P : (0 < inject_Z width)%Q) by (unfold Qlt; simpl; lia).
  apply Qabs_Qle_condition. split.
  - apply Qle_shift_div_l; [exact P|].
    unfold Qle, Qmult, Qopp, inject_Z. cbn [Qnum Qden]. lia.
  - apply Qle_shift_div_r; [exact P|].
    unfold Qle, Qmult, inject_Z. cbn [Qnum Qden]. lia.
Qed.

Lemma deviation_is_within_half_a_lane_witness :
  (Qabs (deviation_of 640 road_left road_right) <= 37 # 20)%Q.
Proof.
  apply (deviation_is_within_half_a_lane 640 road_left road_right);
    simpl; lia.
Defined.

(** X10: the deviation is linear in the position of the lane: moving both
    lane lines [k] pixels to the right lowers it by [k * 3.7 / width]
    metres, and it does not depend on which of the two lines is called
    left. *)
Theorem deviation_follows_the_lane (width k : Z) (l r : LaneLine) :
  (deviation_of width (shift_line k l) (shift_line k r)
   == deviation_of width l r - inject_Z k * ((37 # 10) / inject_Z width))%Q
  /\ (deviation_of width r l == deviation_of width l r)%Q.
Proof.
  destruct l as [[[lx ly] lx'] ly'], r as [[[rx ry] rx'] ry'].
  unfold deviation_of, vehicle_center_of, lane_center_of, shift_line.
  cbn [bottom_x]. split.
  - replace (lx + k + (rx + k)) with ((lx + rx) + (k + k)) by lia.
    rewrite !inject_Z_plus. unfold Qdiv.
    setoid_replace (/ 2)%Q with (1 # 2)%Q by reflexivity. ring.
  - rewrite (Z.add_comm rx lx). reflexivity.
Qed.

(* ================================================================== *)
(** ** Endpoint order *)

Section Flip.

Lemma exact_slope_flip (s : Segment) :
  (exact_slope (flip s) == exact_slope s)%Q.
Proof.
  destruct s as [[[x1 y1] x2] y2]. unfold flip, exact_slope.
  replace (y1 - y2) with (- (y2 - y1)) by lia.
  replace (x1 - x2) with (- (x2 - x1)) by lia.
  rewrite !inject_Z_opp.
  destruct (Z.eq_dec (x2 - x1) 0) as [-> | NZ].
  { unfold Qeq, Qdiv, Qmult. simpl. lia. }
  field. rewrite (inject_Z_injective _ 0). exact NZ.
Qed.

Lemma keeps_flip (s : Segment) :
  keeps_left (flip s) = keeps_left s /\ keeps_right (flip s) = keeps_right s.
Proof.
  pose proof (exact_slope_flip s) as E.
  destruct s as [[[x1 y1] x2] y2].
  unfold keeps_left, keeps_right, Qlt_bool in *. cbn [flip] in *.
  rewrite E.
  replace (x1 - x2 =? 0) with (x2 - x1 =? 0); [split; reflexivity|].
  destruct (x2 - x1 =? 0) eqn:A, (x1 - x2 =? 0) eqn:B; try reflexivity;
    rewrite ?Z.eqb_eq, ?Z.eqb_neq in *; lia.
Qed.

Lemma filter_map_flip (p : Segment -> bool) (l : list Segment) :
  (forall s, p (flip s) = p s) ->
  filter p (map flip l) = map flip (filter p l).
Proof.
  intros H. induction l as [|s l IH]; simpl; [reflexivity|].
  rewrite H, IH. destruct (p s); reflexivity.
Qed.

Lemma small_segment_flip (s : Segment) :
  small_segment s -> small_segment (flip s).
Proof. destruct s as [[[x1 y1] x2] y2]. simpl. tauto. Qed.

End Flip.

(** X12: the side a segment is classified on does not depend on the order
    of its two endpoints: exchanging the endpoints of every detected
    segment yields the same two candidate lists, with the endpoints
    exchanged. *)
Theorem classification_ignores_endpoint_order (lines : list Segment) :
  Forall small_segment lines ->
  classify (Some (map flip lines))
  = (map flip (fst (classify (Some lines))),
     map flip (snd (classify (Some lines)))).
Proof.
  intros F.
  assert (F' : Forall small_segment (map flip lines)).
  { apply Forall_forall. intros s I. apply in_map_iff in I as (t & <- & I).
    apply small_segment_flip. rewrite Forall_forall in F. apply F, I. }
  rewrite (classify_filters _ F), (classify_filters _ F'). cbn [fst snd].
  rewrite !filter_map_flip; [reflexivity | |]; intros s; apply keeps_flip.
Qed.

Lemma classification_ignores_endpoint_order_witness :
  classify (Some (map flip [left_marking; right_marking; (0, 0, 9, 1)]))
  = ([flip left_marking], [flip right_marking]).
Proof.
  assert (F : Forall small_segment
                     [left_marking; right_marking; (0, 0, 9, 1)]).
  { repeat constructor; unfold small; simpl; lia. }
  refine (eq_trans (classification_ignores_endpoint_order _ F) _).
  reflexivity.
Defined.

(* ================================================================== *)
(** ** The route *)

Section RouteLemmas.
Variable K : Kernels.
Variable C : Codecs.

Lemma process_frame_body_decode (request : Request) :
  process_frame_body K C request
  = rbind (decode_request C request) (fun image =>
    rbind (of_exc (process_image K image)) (fun processed =>
    rbind (of_exc (cv2_imencode C (fst processed))) (fun buffer =>
    Ok (("data:image/jpeg;base64," ++ b64encode C buffer)%string,
        snd processed)))).
Proof.
  unfold process_frame_body, decode_request.
  destruct (request_json request) as [data|]; [|reflexivity]. cbn [rbind].
  destruct (getitem data "image") as [v|]; [|reflexivity]. cbn [rbind].
  destruct (str_split v) as [fields|]; [|reflexivity]. cbn [rbind].
  destruct (list_index fields 1) as [image_data|]; [|reflexivity].
  cbn [rbind].
  destruct (base64_b64decode C image_data) as [bytes|]; [|reflexivity].
  cbn [rbind].
  destruct (of_exc (cv2_imdecode C bytes)) as [image|]; [|reflexivity].
  cbn [rbind].
  destruct (of_exc (process_image K image)) as [[out info]|]; reflexivity.
Qed.

Lemma split_on_comma_free (s : string) :
  comma_free s = true -> split_on ","%char s = [s].
Proof.
  induction s as [|c s IH]; cbn [comma_free split_on]; [reflexivity|].
  intros H. apply andb_prop in H as [H1 H2].
  apply negb_true_iff in H1. rewrite H1, (IH H2). reflexivity.
Qed.

Lemma split_on_header (h rest : string) :
  comma_free h = true ->
  split_on ","%char (h ++ String ","%char rest)
  = h :: split_on ","%char rest.
Proof.
  induction h as [|c h IH]; cbn [comma_free split_on append].
  - intros _. reflexivity.
  - intros H. apply andb_prop in H as [H1 H2].
    apply negb_true_iff in H1. rewrite H1, (IH H2). reflexivity.
Qed.

(** The field that is decoded: what stands between the first and the
    second comma. *)
Lemma second_field (h b : string) :
  comma_free h = true -> comma_free b = true ->
  list_index (split_on ","%char (h ++ String ","%char b)) 1 = Ok b
  /\ forall rest,
       list_index
         (split_on ","%char (h ++ String ","%char (b ++ String ","%char rest)))
         1 = Ok b.
Proof.
  intros H B. split.
  - rewrite (split_on_header h b H), (split_on_comma_free b B). reflexivity.
  - intros rest.
    rewrite (split_on_header h _ H), (split_on_header b rest B). reflexivity.
Qed.

Lemma decode_request_second_field (h b : string) :
  comma_free h = true -> comma_free b = true ->
  decode_request C (frame_request (h ++ String ","%char b))
  = rbind (base64_b64decode C b) (fun bytes => of_exc (cv2_imdecode C bytes))
  /\ forall rest,
       decode_request
         C (frame_request (h ++ String ","%char (b ++ String ","%char rest)))
       = rbind (base64_b64decode C b)
               (fun bytes => of_exc (cv2_imdecode C bytes)).
Proof.
  intros H B. destruct (second_field h b H B) as [S1 S2].
  unfold decode_request, frame_request.
  cbn [request_json rbind getitem members_get String.eqb Ascii.eqb
       Bool.eqb str_split].
  split; [rewrite S1; reflexivity|].
  intros rest. rewrite S2. reflexivity.
Qed.

Lemma cv2_imencode_malformed (image : PyImage) :
  malformed image -> cv2_imencode C image = Raise cv2_error.
Proof.
  unfold malformed, cv2_imencode. destruct image as [m|]; [|reflexivity].
  intros M. unfold empty.
  replace ((rows m <=? 0) || (cols m <=? 0)) with true; [reflexivity|].
  symmetry. apply orb_true_iff. rewrite !Z.leb_le. exact M.
Qed.

Lemma cv2_imencode_Ret (image : PyImage) (buffer : list Byte.byte) :
  cv2_imencode C image = Ret buffer ->
  exists m, image = Some m /\ empty m = false /\ imencode_jpg C m = Ret buffer.
Proof.
  unfold cv2_imencode. destruct image as [m|]; [|discriminate].
  destruct (empty m) eqn:E; [discriminate|]. eauto.
Qed.

Lemma process_image_lanes (image out : PyImage) (info : dict) :
  process_image K image = Ret (out, info) ->
  info = []
  \/ map fst info
     = [ "left_fit"; "right_fit"; "left_curverad"; "right_curverad";
         "deviation" ]%string.
Proof.
  intros H. destruct info as [|kv info]; [left; reflexivity|]. right.
  assert (N : kv :: info <> []) by discriminate.
  destruct (process_image_metrics_from_pipeline K _ _ _ H N)
    as (resized & o & _ & P & _).
  pose proof P as P'. apply pipeline_Ret in P' as (lines & _ & D & _).
  rewrite (pipeline_info K _ _ _ _ P D) in *.
  destruct (fst (lane_lines K (rows resized) lines)),
           (snd (lane_lines K (rows resized) lines));
    try contradiction; reflexivity.
Qed.

End RouteLemmas.

(** X13: a request the route cannot use is answered with status 500 and
    never with an exception: a body that is not JSON, a body that is not an
    object, an object without the key [image], an [image] that is not a
    string, an [image] string without a comma (nothing to select after the
    header), and a second field that base64 rejects. *)
Theorem unusable_requests_get_500 (K : Kernels) (C : Codecs) :
  process_frame K C Unparsable = Json500 BadRequest
  /\ (forall data,
        (forall members, data <> JObject members) ->
        process_frame K C (Body data) = Json500 TypeError)
  /\ (forall members,
        members_get members "image" = None ->
        process_frame K C (Body (JObject members)) = Json500 KeyError)
  /\ (forall members v,
        members_get members "image" = Some v ->
        (forall s, v <> JString s) ->
        process_frame K C (Body (JObject members)) = Json500 AttributeError)
  /\ (forall s,
        comma_free s = true ->
        process_frame K C (frame_request s) = Json500 IndexError)
  /\ (forall h b,
        comma_free h = true -> comma_free b = true ->
        b64decode C b = None ->
        process_frame K C (frame_request (h ++ String ","%char b))
        = Json500 binascii_Error).
Proof.
  split; [reflexivity|]. split.
  { intros data N. destruct data; try reflexivity.
    exfalso. exact (N _ eq_refl). }
  split.
  { intros members M. unfold process_frame, process_frame_body.
    cbn [request_json rbind getitem]. rewrite M. reflexivity. }
  split.
  { intros members v M N. unfold process_frame, process_frame_body.
    cbn [request_json rbind getitem]. rewrite M. cbn [rbind].
    destruct v; try reflexivity. exfalso. exact (N _ eq_refl). }
  split.
  { intros s S. unfold process_frame, process_frame_body, frame_request.
    cbn [request_json rbind getitem members_get String.eqb Ascii.eqb
         Bool.eqb str_split].
    rewrite (split_on_comma_free s S). reflexivity. }
  intros h b H B D. unfold process_frame.
  rewrite process_frame_body_decode.
  rewrite (proj1 (decode_request_second_field C h b H B)).
  unfold base64_b64decode. rewrite D. reflexivity.
Qed.

(** X14: bytes that do not decode to a usable frame are answered with
    status 500: [process_image] hands the [None] (or empty) frame back
    without raising, and it is the JPEG encoding of that frame that
    fails. *)
Theorem undecodable_image_gets_500
        (K : Kernels) (C : Codecs) (request : Request) (image : PyImage) :
  decode_request C request = Ok image ->
  malformed image ->
  process_image K image = Ret (image, [])
  /\ process_frame K C request = Json500 (cv2_failure cv2_error).
Proof.
  intros D M.
  assert (P : process_image K image = Ret (image, [])).
  { apply (cv2_resize_raises_iff K) in M as [e E].
    exact (process_image_resize_raised K image e E). }
  split; [exact P|].
  unfold process_frame. rewrite process_frame_body_decode, D.
  cbn [rbind]. rewrite P. cbn [of_exc rbind fst].
  rewrite (cv2_imencode_malformed C image M). reflexivity.
Qed.

Lemma undecodable_image_gets_500_witness :
  process_frame K_road deaf_codecs
                (frame_request "data:image/jpeg;base64,AAAA")
  = Json500 (cv2_failure cv2_error).
Proof.
  refine (proj2 (undecodable_image_gets_500
                   K_road deaf_codecs
                   (frame_request "data:image/jpeg;base64,AAAA") None
                   eq_refl I)).
Defined.

(** X15: a response with status 200 always carries a frame that was decoded
    from the request as a non-empty array, run through [process_image] and
    encoded as JPEG: its [image] is the text [data:image/jpeg;base64,]
    followed by the base64 of the encoding of a 640x480 frame, and its
    [lanes] are the metrics of that run, empty or with the five fields. *)
Theorem ok_response_carries_the_processed_frame
        (K : Kernels) (C : Codecs) (request : Request)
        (image : string) (lanes : dict) :
  process_frame K C request = Json200 image lanes ->
  exists m out buffer,
    decode_request C request = Ok (Some m)
    /\ empty m = false
    /\ process_image K (Some m) = Ret (Some out, lanes)
    /\ dims out = (480, 640)
    /\ imencode_jpg C out = Ret buffer
    /\ image = ("data:image/jpeg;base64," ++ b64encode C buffer)%string
    /\ (lanes = []
        \/ map fst lanes
           = [ "left_fit"; "right_fit"; "left_curverad"; "right_curverad";
               "deviation" ]%string).
Proof.
  unfold process_frame. rewrite process_frame_body_decode.
  destruct (decode_request C request) as [img|]; [|discriminate].
  cbn [rbind].
  destruct (process_image K img) as [[out info]|e] eqn:P; [|discriminate].
  cbn [of_exc rbind fst snd].
  destruct (cv2_imencode C out) as [buffer|e] eqn:E; [|discriminate].
  cbn [of_exc rbind]. intros H. injection H as <- <-.
  apply cv2_imencode_Ret in E as (o & -> & Eo & J).
  destruct img as [m|].
  - assert (Em : empty m = false).
    { destruct (empty m) eqn:Em; [|reflexivity].
      assert (R : cv2_resize K (Some m) (640, 480) = Raise cv2_error)
        by (unfold cv2_resize; rewrite Em; reflexivity).
      rewrite (process_image_resize_raised K _ _ R) in P.
      injection P as <- _. congruence. }
    exists m, o, buffer. split; [reflexivity|]. split; [exact Em|].
    split; [exact P|].
    split; [exact (process_image_dims K m o info Em P)|].
    split; [exact J|]. split; [reflexivity|].
    exact (process_image_lanes K _ _ _ P).
  - assert (R : cv2_resize K None (640, 480) = Raise cv2_error)
      by reflexivity.
    rewrite (process_image_resize_raised K _ _ R) in P. discriminate.
Qed.

Lemma ok_response_carries_the_processed_frame_witness :
  exists image lanes m out buffer,
    process_frame K_road plain_codecs
                  (frame_request "data:image/jpeg;base64,AAAA")
    = Json200 image lanes
    /\ process_image K_road (Some m) = Ret (Some out, lanes)
    /\ dims out = (480, 640)
    /\ image = ("data:image/jpeg;base64," ++ b64encode plain_codecs buffer)%string.
Proof.
  eexists. eexists.
  destruct (ok_response_carries_the_processed_frame
              K_road plain_codecs
              (frame_request "data:image/jpeg;base64,AAAA") _ _ eq_refl)
    as (m & out & buffer & _ & _ & P & D & _ & I & _).
  exists m, out, buffer. split; [reflexivity|]. auto.
Defined.

(** X16: of the [image] string only the text between the first and the
    second comma is decoded: the header before the first comma does not
    matter, anything after a second comma is ignored, and for a data URL
    [data:image/jpeg;base64,<text>] the route decodes exactly [<text>]. *)
Theorem only_the_second_field_is_decoded
        (K : Kernels) (C : Codecs) (h h' b : string) :
  comma_free h = true -> comma_free h' = true -> comma_free b = true ->
  process_frame K C (frame_request (h ++ String ","%char b))
  = process_frame K C (frame_request (h' ++ String ","%char b))
  /\ (forall rest,
        process_frame
          K C (frame_request (h ++ String ","%char (b ++ String ","%char rest)))
        = process_frame K C (frame_request (h ++ String ","%char b)))
  /\ decode_request C (frame_request ("data:image/jpeg;base64," ++ b))
     = rbind (base64_b64decode C b)
             (fun bytes => of_exc (cv2_imdecode C bytes)).
Proof.
  intros H H' B.
  destruct (decode_request_second_field C h b H B) as [D1 D2].
  destruct (decode_request_second_field C h' b H' B) as [D1' _].
  split; [|split].
  - unfold process_frame. rewrite !process_frame_body_decode, D1, D1'.
    reflexivity.
  - intros rest. unfold process_frame.
    rewrite !process_frame_body_decode, D1, D2. reflexivity.
  - exact (proj1 (decode_request_second_field
                    C "data:image/jpeg;base64" b eq_refl B)).
Qed.

Lemma only_the_second_field_is_decoded_witness :
  process_frame K_road plain_codecs
                (frame_request "data:image/jpeg;base64,AAAA")
  = process_frame K_road plain_codecs (frame_request "x,AAAA").
Proof.
  exact (proj1 (only_the_second_field_is_decoded
                  K_road plain_codecs "data:image/jpeg;base64" "x" "AAAA"
                  eq_refl eq_refl eq_refl)).
Defined.

(* ================================================================== *)
(** ** Start-up *)

Section StartupLemmas.

Lemma path_eqb_eq (p q : path) : path_eqb p q = true <-> p = q.
Proof.
  unfold path_eqb. destruct (list_eq_dec string_dec p q); split;
    congruence.
Qed.

Lemma update_same (f : fs) (p : path) (n : node) : update f p n p = Some n.
Proof.
  unfold update. replace (path_eqb p p) with true; [reflexivity|].
  symmetry. apply path_eqb_eq. reflexivity.
Qed.

Lemma update_other (f : fs) (p q : path) (n : node) :
  q <> p -> update f p n q = f q.
Proof.
  intros N. unfold update. destruct (path_eqb q p) eqn:E; [|reflexivity].
  apply path_eqb_eq in E. contradiction.
Qed.

Lemma removelast_shorter (p : path) : p <> [] -> removelast p <> p.
Proof.
  intros N E. apply (f_equal (@List.length string)) in E.
  assert (L : forall q : path,
             q <> [] -> S (List.length (removelast q)) = List.length q).
  { induction q as [|a q IH]; [contradiction|]. intros _.
    destruct q as [|b q]; [reflexivity|].
    cbn [removelast List.length] in *. rewrite IH by discriminate.
    reflexivity. }
  specialize (L p N). lia.
Qed.

(** Adding an entry that is missing, inside a directory, keeps the file
    system well formed. *)
Lemma well_formed_update (f : fs) (p : path) (n : node) :
  well_formed_fs f ->
  p <> [] -> f p = None -> parent_node f p = Some Dir ->
  well_formed_fs (update f p n).
Proof.
  intros W Np Fp Pp q Hq.
  destruct (list_eq_dec string_dec q p) as [-> | Nq].
  - split; [exact Np|]. unfold parent_node in *.
    pose proof (removelast_shorter p Np) as R.
    destruct (removelast p) as [|a r] eqn:E; [reflexivity|].
    rewrite update_other by exact R. exact Pp.
  - rewrite update_other in Hq by exact Nq.
    destruct (W q Hq) as [Nq0 Pq]. split; [exact Nq0|].
    unfold parent_node in *.
    destruct (removelast q) as [|a r] eqn:E; [reflexivity|].
    destruct (list_eq_dec string_dec (a :: r) p) as [Ep | Np'].
    + rewrite Ep, Fp in Pq. discriminate.
    + rewrite update_other by exact Np'. exact Pq.
Qed.

Lemma index_needs_web (f : fs) :
  well_formed_fs f -> f web_index_html <> None -> f web = Some Dir.
Proof. intros W H. exact (proj2 (W _ H)). Qed.

(** With both entries in place start-up does nothing. *)
Lemma startup_noop (page : string) (f : fs) :
  f web <> None -> f web_index_html <> None -> startup page f = inr f.
Proof.
  intros Hw Hi. unfold startup, os_path_exists.
  destruct (f web); [|contradiction]. cbn [negb].
  destruct (f web_index_html); [reflexivity | contradiction].
Qed.

End StartupLemmas.

(** X17: in a working directory where [web] is not a regular file, start-up
    succeeds; afterwards [web] is a directory and [web/index.html] exists,
    with the built-in page if it was missing and untouched if it was there;
    nothing else is changed. *)
Theorem startup_provides_the_page (page : string) (f : fs) :
  well_formed_fs f ->
  (forall c, f web <> Some (File c)) ->
  exists f',
    startup page f = inr f'
    /\ f' web = Some Dir
    /\ f' web_index_html
       = match f web_index_html with
         | Some n => Some n
         | None => Some (File page)
         end
    /\ (forall p, p <> web -> p <> web_index_html -> f' p = f p)
    /\ well_formed_fs f'.
Proof.
  intros W NF. unfold startup, os_path_exists.
  assert (NE : web_index_html <> web) by discriminate.
  destruct (f web) as [[c|]|] eqn:Fw.
  - exfalso. exact (NF c eq_refl).
  - cbn [negb]. destruct (f web_index_html) as [n|] eqn:Fi; cbn [negb].
    + exists f. split; [reflexivity|]. split; [auto|]. split; [auto|].
      split; [auto | exact W].
    + unfold write_file, parent_node. cbn [removelast web_index_html].
      fold web. rewrite Fw, Fi.
      eexists. split; [reflexivity|].
      split; [rewrite update_other by (intro E; discriminate); exact Fw|].
      split; [apply update_same|].
      split; [intros p _ Np; apply update_other, Np|].
      apply (well_formed_update f web_index_html (File page) W);
        [discriminate | exact Fi |].
      unfold parent_node. cbn [removelast web_index_html]. exact Fw.
  - cbn [negb]. unfold os_makedirs. rewrite Fw.
    assert (Fi : f web_index_html = None).
    { destruct (f web_index_html) eqn:Fi; [|reflexivity].
      assert (H : f web_index_html <> None) by congruence.
      apply (index_needs_web f W) in H. congruence. }
    rewrite (update_other f web web_index_html Dir NE), Fi. cbn [negb].
    unfold write_file, parent_node. cbn [removelast web_index_html].
    fold web. rewrite update_same, (update_other f web _ Dir NE), Fi.
    assert (W1 : well_formed_fs (update f web Dir)).
    { apply (well_formed_update f web Dir W);
        [discriminate | exact Fw | reflexivity]. }
    eexists. split; [reflexivity|].
    split; [rewrite update_other by (intro E; discriminate);
            apply update_same|].
    split; [apply update_same|].
    split.
    { intros p Nw Ni. rewrite update_other by exact Ni.
      apply update_other, Nw. }
    apply (well_formed_update (update f web Dir) web_index_html
                              (File page) W1); [discriminate | |].
    + rewrite update_other by exact NE. exact Fi.
    + unfold parent_node. cbn [removelast web_index_html]. apply update_same.
Qed.

Lemma startup_provides_the_page_witness :
  exists f',
    startup "page" empty_fs = inr f'
    /\ f' web = Some Dir
    /\ f' web_index_html = Some (File "page").
Proof.
  assert (W : well_formed_fs empty_fs) by (intros p H; contradiction).
  assert (N : forall c, empty_fs web <> Some (File c)) by discriminate.
  destruct (startup_provides_the_page "page" empty_fs W N)
    as (f' & S & Fw & Fi & _).
  exists f'. auto.
Defined.

(** X18: start-up is idempotent and never overwrites: after a successful
    start-up a second one, even with another page text, changes nothing;
    and an entry that was at [web] or at [web/index.html] before is still
    there, unchanged. *)
Theorem startup_twice_changes_nothing (page page' : string) (f f' : fs) :
  startup page f = inr f' ->
  startup page' f' = inr f'
  /\ (forall n, f web_index_html = Some n -> f' web_index_html = Some n)
  /\ (forall n, f web = Some n -> f' web = Some n).
Proof.
  assert (NE : web_index_html <> web) by discriminate.
  assert (NE' : web <> web_index_html) by discriminate.
  unfold startup at 1. unfold os_path_exists, os_makedirs.
  destruct (f web) as [nw|] eqn:Fw; cbn [negb].
  - destruct (f web_index_html) as [ni|] eqn:Fi; cbn [negb].
    + intros H. injection H as <-.
      split; [apply startup_noop; congruence|].
      split; intros n E; congruence.
    + unfold write_file.
      destruct (parent_node f web_index_html) as [[c|]|]; try discriminate.
      rewrite Fi. intros H. injection H as <-.
      split; [|split].
      * apply startup_noop.
        -- rewrite (update_other f _ web _ NE'). congruence.
        -- rewrite update_same. discriminate.
      * intros n E. discriminate.
      * intros n E. rewrite (update_other f _ web _ NE'). congruence.
  - rewrite (update_other f web web_index_html Dir NE).
    destruct (f web_index_html) as [ni|] eqn:Fi; cbn [negb].
    + intros H. injection H as <-.
      split; [|split].
      * apply startup_noop.
        -- rewrite update_same. discriminate.
        -- rewrite (update_other f web _ Dir NE). congruence.
      * intros n E. rewrite (update_other f web _ Dir NE). congruence.
      * intros n E. discriminate.
    + unfold write_file.
      destruct (parent_node (update f web Dir) web_index_html)
        as [[c|]|]; try discriminate.
      rewrite (update_other f web web_index_html Dir NE), Fi.
      intros H. injection H as <-.
      split; [|split].
      * apply startup_noop.
        -- rewrite (update_other _ _ web _ NE'), update_same. discriminate.
        -- rewrite update_same. discriminate.
      * intros n E. discriminate.
      * intros n E. discriminate.
Qed.

Lemma startup_twice_changes_nothing_witness :
  startup "other" own_page = inr own_page
  /\ own_page web_index_html = Some (File "mine").
Proof.
  destruct (startup_twice_changes_nothing "page" "other" own_page own_page
              eq_refl) as (S & I & _).
  split; [exact S | exact (I _ eq_refl)].
Defined.

(** X19: when [web] exists as a regular file, start-up does not create
    anything: the attempt to write [web/index.html] raises
    [NotADirectoryError], which nothing catches. *)
Theorem startup_fails_over_a_file_named_web
        (page : string) (f : fs) (c : string) :
  well_formed_fs f ->
  f web = Some (File c) ->
  startup page f = inl NotADirectoryError.
Proof.
  intros W Fw. unfold startup, os_path_exists. rewrite Fw. cbn [negb].
  assert (Fi : f web_index_html = None).
  { destruct (f web_index_html) eqn:Fi; [|reflexivity].
    assert (H : f web_index_html <> None) by congruence.
    apply (index_needs_web f W) in H. congruence. }
  rewrite Fi. cbn [negb]. unfold write_file, parent_node.
  cbn [removelast web_index_html]. fold web. rewrite Fw. reflexivity.
Qed.

Lemma startup_fails_over_a_file_named_web_witness :
  startup "page" web_is_file = inl NotADirectoryError.
Proof.
  apply (startup_fails_over_a_file_named_web "page" web_is_file "x").
  - intros p H. unfold web_is_file, update, empty_fs in H.
    destruct (path_eqb p web) eqn:E; [|contradiction].
    apply path_eqb_eq in E. subst p. split; [discriminate | reflexivity].
  - reflexivity.
Defined.

(* ================================================================== *)
(** ** Metrics and failures (C7) *)

Section MetricsAndFailures.
Variable K : Kernels.



End MetricsAndFailures.




(* ================================================================== *)
(** ** The geometry of the resized frame (C10) *)

(** C10: the frame is resized to 640x480 before anything else, and every
    later stage works on that geometry: the region of interest is the
    triangle (0,480), (640,480), (320,240) filled into a mask of the edge
    map; the overlay is a 480x640x3 image; a non-empty candidate set is
    averaged to a line from y = 480 to y = 288; the deviation is measured
    from the vehicle centre x = 320 over a width of 640; and when processing
    succeeds the annotated frame is 640x480 whatever the dimensions of the
    input, its metrics and its pixels being those of the lines fitted at
    height 480 and annotated at width 640. *)
Theorem resized_geometry
        (K : Kernels) (image : PyImage) (resized : Mat) :
  cv2_resize K image (640, 480) = Ret resized ->
  dims resized = (480, 640)
  /\ try_block K image = (Some resized, pipeline K resized)
  /\ roi_polygon (rows resized) (cols resized)
     = [ (0, 480); (640, 480); (320, 240) ]
  /\ detect_lines K resized
     = (gray <- cv2_cvtColor_BGR2GRAY K resized ;;
        blur <- cv2_GaussianBlur K gray (5, 5) 0 ;;
        edges <- cv2_Canny K blur 50 150 ;;
        masked_edges <-
          cv2_bitwise_and
            edges
            (cv2_fillPoly K (np_zeros_like edges)
                          [ (0, 480); (640, 480); (320, 240) ] 255) ;;
        Ret (cv2_HoughLinesP K masked_edges hough_params))
  /\ pipeline K resized
     = (lines <- detect_lines K resized ;;
        let '(left_line, right_line) := lane_lines K 480 lines in
        line_image <-
          draw_lane K (np_zeros (480, 640, 3)) left_line (0, 0, 255) ;;
        line_image <- draw_lane K line_image right_line (0, 255, 0) ;;
        result <- cv2_addWeighted resized (8 # 10) line_image 1 0 ;;
        Ret (annotate K 640 result left_line right_line))
  /\ (forall ls,
        ls <> [] ->
        average_lines K (rows resized) ls
        = Some (solve_x (fst (polyfit1 K (xs_of ls) (ys_of ls)))
                        (snd (polyfit1 K (xs_of ls) (ys_of ls))) 480,
                480,
                solve_x (fst (polyfit1 K (xs_of ls) (ys_of ls)))
                        (snd (polyfit1 K (xs_of ls) (ys_of ls))) 288,
                288))
  /\ (forall ls l, average_lines K (rows resized) ls = Some l ->
                   bottom_y l = 480 /\ top_y l = 288)
  /\ vehicle_center_of (cols resized) == 320
  /\ (forall l r,
        deviation_of (cols resized) l r
        == (320 - lane_center_of l r) * (37 # 10) / 640)%Q
  /\ (forall out info,
         pipeline K resized = Ret (out, info) ->
         process_image K image = Ret (Some out, info)
         /\ dims out = (480, 640)
         /\ exists lines,
              detect_lines K resized = Ret lines
              /\ info
                 = match fst (lane_lines K 480 lines),
                         snd (lane_lines K 480 lines) with
                   | Some l, Some r => lane_info_of (deviation_of 640 l r)
                   | _, _ => []
                   end
              /\ forall i j c,
                   px out i j c
                   = if under_text K 640 (fst (lane_lines K 480 lines))
                                   (snd (lane_lines K 480 lines)) i j
                     then 255
                     else saturate_u8
                            (round_half_even
                               (inject_Z (px resized i j c) * (8 # 10)
                                + inject_Z
                                    (overlay_value
                                       K (fst (lane_lines K 480 lines))
                                       (snd (lane_lines K 480 lines)) i j c)
                                  * 1 + 0)%Q)).
Proof.
  intros H. pose proof H as H0.
  apply cv2_resize_Ret in H0 as (m & -> & E & _).
  rewrite (cv2_resize_nonempty K m 640 480 E) in H. injection H as <-.
  set (resized := mkMat 480 640 (chans m) (resize_px K m 480 640)).
  assert (R : cv2_resize K (Some m) (640, 480) = Ret resized)
    by apply (cv2_resize_nonempty K m 640 480 E).
  split; [reflexivity|].
  split; [unfold try_block; rewrite R; reflexivity|].
  split; [reflexivity|]. split; [reflexivity|]. split; [reflexivity|].
  split.
  { intros ls N. rewrite (average_lines_nonempty K _ ls N). reflexivity. }
  split.
  { intros ls l A.
    assert (N : ls <> []) by (intros ->; discriminate).
    rewrite (average_lines_nonempty K _ ls N) in A.
    injection A as <-. split; reflexivity. }
  split; [reflexivity|].
  split.
  { intros l r. unfold deviation_of, vehicle_center_of. cbn [cols resized].
    setoid_replace (inject_Z 640 / 2)%Q with (320 : Q) by reflexivity.
    reflexivity. }
  intros out info P.
  split; [rewrite (process_image_resized K _ _ R), P; reflexivity|].
  split.
  { apply pipeline_shape in P as (R' & C' & _).
    unfold dims. rewrite R', C'. reflexivity. }
  pose proof P as P'. apply pipeline_Ret in P' as (lines & _ & D & _).
  exists lines. split; [exact D|].
  split; [exact (pipeline_info K _ _ _ _ P D)|].
  exact (proj2 (proj2 (pipeline_pixels K _ _ _ _ P D))).
Qed.

Lemma resized_geometry_witness :
  exists resized out,
    cv2_resize K_road (Some (uniform_frame 720 1280 3 90)) (640, 480)
    = Ret resized
    /\ dims resized = (480, 640)
    /\ roi_polygon (rows resized) (cols resized)
       = [ (0, 480); (640, 480); (320, 240) ]
    /\ average_lines K_road (rows resized) [left_marking] = Some road_left
    /\ process_image K_road (Some (uniform_frame 720 1280 3 90))
       = Ret (Some out, lane_info_of (deviation_of 640 road_left road_right))
    /\ dims out = (480, 640).
Proof.
  eexists. eexists. split; [reflexivity|].
  destruct (resized_geometry K_road (Some (uniform_frame 720 1280 3 90)) _
              eq_refl) as (D & _ & P & _ & _ & A & _ & _ & _ & S).
  split; [exact D|]. split; [exact P|].
  split; [rewrite (A [left_marking]) by discriminate; reflexivity|].
  destruct (S _ _ eq_refl) as (Pi & Do & _).
  split; [exact Pi | exact Do].
Defined.
